(** * Vendor management back end: request pipeline, audit, sync and risk handlers

    A shallow embedding of the Express back end under [src/backend/src]
    (and the middleware files recovered as [src/unnamed/part_006] and the
    tail of [routes/contract.js]).  JavaScript values are modelled as a
    small JSON type, database tables as association lists of rows, and the
    observable behaviour of a request as a trace of effects together with
    the HTTP response. *)

From Stdlib Require Import String Ascii List ZArith Bool Lia.
From Stdlib Require QArith.
Import ListNotations.
Open Scope string_scope.

(** ** JSON values and the JavaScript operations used on them *)

Module Json.

#[local] Set Warnings "-register-all".

Inductive json : Type :=
| JNull
| JBool (b : bool)
| JNum (n : Z)
| JStr (s : string)
| JArr (l : list json)
| JObj (kvs : list (string * json)).

(** JavaScript truthiness ([if (x)]); [undefined] is [None]. *)
Definition truthy (v : option json) : bool :=
  match v with
  | None | Some JNull => false
  | Some (JBool b) => b
  | Some (JNum n) => negb (Z.eqb n 0)
  | Some (JStr s) => negb (String.eqb s EmptyString)
  | Some (JArr _) | Some (JObj _) => true
  end.

(** Property read [o.k] on an object's own properties. *)
Fixpoint lookup (k : string) (kvs : list (string * json)) : option json :=
  match kvs with
  | [] => None
  | (k', v) :: rest => if String.eqb k k' then Some v else lookup k rest
  end.

(** Property write [o.k = v]: an existing property is updated in place,
    a new one is appended. *)
Fixpoint set (k : string) (v : json) (kvs : list (string * json))
  : list (string * json) :=
  match kvs with
  | [] => [(k, v)]
  | (k', v') :: rest =>
      if String.eqb k k' then (k', v) :: rest else (k', v') :: set k v rest
  end.

Definition get (k : string) (j : json) : option json :=
  match j with JObj kvs => lookup k kvs | _ => None end.

(** Decimal rendering of array indices used as keys by object spread. *)
Definition digit (n : nat) : string := String (ascii_of_nat (48 + n)) EmptyString.

Fixpoint nat_to_string_aux (fuel n : nat) (acc : string) : string :=
  match fuel with
  | O => acc
  | S f =>
      let acc' := digit (n mod 10) ++ acc in
      if Nat.ltb n 10 then acc' else nat_to_string_aux f (n / 10) acc'
  end.

Definition nat_to_string (n : nat) : string := nat_to_string_aux (S n) n EmptyString.

Fixpoint indexed {A} (i : nat) (l : list A) : list (string * A) :=
  match l with
  | [] => []
  | x :: rest => (nat_to_string i, x) :: indexed (S i) rest
  end.

Fixpoint chars (s : string) : list json :=
  match s with
  | EmptyString => []
  | String c rest => JStr (String c EmptyString) :: chars rest
  end.

(** Object spread [{ ...v }]: the own enumerable properties of [v]. *)
Definition spread (v : json) : list (string * json) :=
  match v with
  | JObj kvs => kvs
  | JArr l => indexed 0 l
  | JStr s => indexed 0 (chars s)
  | _ => []
  end.

(** [String.prototype.includes]. *)
Fixpoint includes (hay needle : string) : bool :=
  if String.prefix needle hay then true
  else match hay with
       | EmptyString => false
       | String _ rest => includes rest needle
       end.

(** ASCII [toLowerCase]. *)
Definition lower_ascii (c : ascii) : ascii :=
  let n := nat_of_ascii c in
  if andb (Nat.leb 65 n) (Nat.leb n 90) then ascii_of_nat (n + 32) else c.

Fixpoint to_lower (s : string) : string :=
  match s with
  | EmptyString => EmptyString
  | String c rest => String (lower_ascii c) (to_lower rest)
  end.

(** Every value stored at any depth under a property named [k]. *)
Fixpoint fields_named (k : string) (j : json) : list json :=
  match j with
  | JArr l => flat_map (fields_named k) l
  | JObj kvs =>
      flat_map (fun '(k', v) =>
                  app (if String.eqb k k' then [v] else []) (fields_named k v)) kvs
  | _ => []
  end.

(** [JSON.stringify]: keys in insertion order, no whitespace. *)
Definition hex_digit (n : nat) : string :=
  if Nat.ltb n 10 then digit n
  else String (ascii_of_nat (87 + n)) EmptyString.

(** The double-quote character. *)
Definition dq : string := String (ascii_of_nat 34) EmptyString.

Definition escape_char (c : ascii) : string :=
  let n := nat_of_ascii c in
  if Nat.eqb n 34 then "\" ++ dq
  else if Nat.eqb n 92 then "\\"
  else if Nat.ltb n 32 then "\u00" ++ hex_digit (n / 16) ++ hex_digit (n mod 16)
  else String c EmptyString.

Fixpoint escape (s : string) : string :=
  match s with
  | EmptyString => EmptyString
  | String c rest => escape_char c ++ escape rest
  end.

Definition quote (s : string) : string := dq ++ escape s ++ dq.

Definition z_to_string (z : Z) : string :=
  match z with
  | Z0 => "0"
  | Zpos p => nat_to_string (Pos.to_nat p)
  | Zneg p => "-" ++ nat_to_string (Pos.to_nat p)
  end.

Fixpoint concat_sep (l : list string) : string :=
  match l with
  | [] => EmptyString
  | [x] => x
  | x :: rest => x ++ "," ++ concat_sep rest
  end.

Fixpoint stringify (j : json) : string :=
  match j with
  | JNull => "null"
  | JBool true => "true"
  | JBool false => "false"
  | JNum n => z_to_string n
  | JStr s => quote s
  | JArr l => "[" ++ concat_sep (map stringify l) ++ "]"
  | JObj kvs =>
      "{" ++ concat_sep (map (fun '(k, v) => quote k ++ ":" ++ stringify v) kvs) ++ "}"
  end.

End Json.

Import Json.

(** ** Responses and effects *)

Record response := mkResponse { status : Z; rbody : json }.

Definition err_body (msg code : string) : json :=
  JObj [("error", JStr msg); ("code", JStr code)].

(** An audit row as built in [auditLogger]. *)
Record audit_row := mkAuditRow {
  a_tenant : string;
  a_user : option string;
  a_action : string;
  a_resource_type : string;
  a_resource_id : option json;
  a_module : string;
  a_details : json
}.

(** Observable effects of handling one request. *)
Inductive effect : Type :=
| EDbRead (table : string)
| EDbWrite (table : string)
| EHandler
| EAuditInsert (row : audit_row)
| EConsole (msg : string)
| ERemote (target : string)
| ESleep (ms : Z).

(** ** Request context *)

(** The incoming request as the middleware sees it ([req.path] is the full
    path, equal to [req.originalUrl] for the requests modelled here). *)
Record request := mkRequest {
  method : string;
  path : string;
  route_path : option string;
  auth_header : option string;
  params_id : option string;
  body : json;
  query_params : json;
  ip : string;
  user_agent : string
}.

(** [req.user] as attached by [authenticate]. *)
Record ctx_user := mkCtxUser {
  cu_id : string;
  cu_email : string;
  cu_tenant_id : string;
  cu_role : string
}.

(** Outcome of a middleware: call [next()] with what it attached, or send
    a response and stop. *)
Inductive mw_outcome (A : Type) : Type :=
| Next (a : A)
| Stop (r : response).
Arguments Next {A} a.
Arguments Stop {A} r.

(** ** Credential verifier and authorization gate
    ([authenticate] and [authorize] at the end of [routes/contract.js]) *)

Module Auth.

Record user_row := mkUserRow {
  u_id : string;
  u_email : string;
  u_tenant_id : string;
  u_role : string;
  u_status : string
}.

Record tenant_row := mkTenantRow {
  t_id : string;
  t_name : string;
  t_status : string;
  t_region : string
}.

Record db := mkDb { users : list user_row; tenants : list tenant_row }.

(** What a token decodes to: the [userId] claim, whether the signature
    matches [JWT_SECRET], and whether [exp] lies in the past. *)
Record jwt_claims := mkJwt { jt_user : string; jt_sig_ok : bool; jt_expired : bool }.

Inductive jwt_result := JwtOk (userId : string) | JwtError (name : string).

(** [jwt.verify] of the jsonwebtoken package: a malformed token or a bad
    signature throws [JsonWebTokenError]; a well-signed token past its
    expiry throws [TokenExpiredError]; signature is checked first. *)
Definition jwt_verify (decode : string -> option jwt_claims) (token : string)
  : jwt_result :=
  match decode token with
  | None => JwtError "JsonWebTokenError"
  | Some j =>
      if negb (jt_sig_ok j) then JwtError "JsonWebTokenError"
      else if jt_expired j then JwtError "TokenExpiredError"
      else JwtOk (jt_user j)
  end.

(** The user lookup joined with its tenant:
    [WHERE u.id = $1 AND u.status = 'active' AND t.status = 'active']. *)
Definition find_active_user (d : db) (uid : string) : option ctx_user :=
  let rows :=
    flat_map (fun u =>
      flat_map (fun t =>
        if String.eqb (u_tenant_id u) (t_id t) && String.eqb (u_id u) uid
           && String.eqb (u_status u) "active" && String.eqb (t_status t) "active"
        then [mkCtxUser (u_id u) (u_email u) (t_id t) (u_role u)] else [])
        (tenants d)) (users d) in
  match rows with
  | [] => None
  | r :: _ => Some r
  end.

Definition authenticate (decode : string -> option jwt_claims) (d : db)
    (hdr : option string) : list effect * mw_outcome ctx_user :=
  match hdr with
  | None => ([], Stop (mkResponse 401 (err_body "Authentication required" "AUTH_REQUIRED")))
  | Some h =>
      if negb (String.prefix "Bearer " h) then
        ([], Stop (mkResponse 401 (err_body "Authentication required" "AUTH_REQUIRED")))
      else
        let token := String.substring 7 (String.length h - 7) h in
        match jwt_verify decode token with
        | JwtError name =>
            if String.eqb name "JsonWebTokenError" || String.eqb name "TokenExpiredError"
            then ([], Stop (mkResponse 401
                     (err_body "Invalid or expired token"
                        (if String.eqb name "TokenExpiredError"
                         then "TOKEN_EXPIRED" else "INVALID_TOKEN"))))
            else ([EConsole "Auth middleware error:"],
                  Stop (mkResponse 500 (err_body "Authentication failed" "AUTH_ERROR")))
        | JwtOk uid =>
            ([EDbRead "users"],
             match find_active_user d uid with
             | None => Stop (mkResponse 401 (err_body "User not found or inactive" "USER_NOT_FOUND"))
             | Some u => Next u
             end)
        end
  end.

(** [allowedRoles.includes(req.user.role)]. *)
Definition role_in (roles : list string) (r : string) : bool :=
  existsb (String.eqb r) roles.

Definition authorize (allowedRoles : list string) (u : option ctx_user)
  : mw_outcome unit :=
  match u with
  | None => Stop (mkResponse 401 (err_body "Authentication required" "AUTH_REQUIRED"))
  | Some cu =>
      if negb (role_in allowedRoles (cu_role cu)) then
        Stop (mkResponse 403
          (JObj [("error", JStr "Insufficient permissions");
                 ("code", JStr "PERMISSION_DENIED");
                 ("required", JArr (map JStr allowedRoles));
                 ("current", JStr (cu_role cu))]))
      else Next tt
  end.

End Auth.

(** ** Tenant resolver ([tenantMiddleware], [src/unnamed/part_006]) *)

Module Tenant.
Import Auth.

Record env := mkEnv { node_env : string; default_tenant_id : option string }.

Definition find_tenant (d : db) (tid : string) : option tenant_row :=
  find (fun t => String.eqb (t_id t) tid) (tenants d).

(** On success, the [req.tenantId] it attached ([None] on the auth routes,
    which it skips). *)
Definition tenantMiddleware (e : env) (d : db) (req : request)
    (u : option ctx_user) : list effect * mw_outcome (option string) :=
  if String.prefix "/api/v1/auth" (path req) then ([], Next None)
  else
    let tenantId :=
      match u with
      | Some cu => if String.eqb (cu_tenant_id cu) EmptyString then None
                   else Some (cu_tenant_id cu)
      | None => None
      end in
    let tenantId :=
      match tenantId with
      | None => if String.eqb (node_env e) "development" then default_tenant_id e
                else None
      | Some t => Some t
      end in
    match tenantId with
    | None => ([], Stop (mkResponse 401
                  (err_body "Tenant identification required" "TENANT_REQUIRED")))
    | Some tid =>
        ([EDbRead "tenants"],
         match find_tenant d tid with
         | None => Stop (mkResponse 404 (err_body "Tenant not found" "TENANT_NOT_FOUND"))
         | Some t =>
             if negb (String.eqb (t_status t) "active")
             then Stop (mkResponse 403 (err_body "Tenant is not active" "TENANT_INACTIVE"))
             else Next (Some (t_id t))
         end)
    end.

End Tenant.

(** ** Audit recorder ([middleware/auditLogger.js]) *)

Module Audit.

Definition AUDITABLE_ACTIONS : list string :=
  ["CREATE"; "UPDATE"; "DELETE"; "LOCK"; "UNLOCK";
   "APPROVE"; "REJECT"; "OVERRIDE"; "DOWNLOAD";
   "EXPORT"; "ACCESS_GRANT"; "ACCESS_REVOKE";
   "CONFIG_CHANGE"; "INTEGRATION_CREATE"; "INTEGRATION_UPDATE"].

Definition extractModule (p : string) : string :=
  if includes p "/rfp" then "rfp"
  else if includes p "/contract" then "contract"
  else if includes p "/procurement" then "procurement"
  else if includes p "/performance" then "performance"
  else if includes p "/risk" then "risk"
  else if includes p "/analytics" then "analytics"
  else if includes p "/helpdesk" then "helpdesk"
  else if includes p "/survey" then "survey"
  else if includes p "/integration" then "integration"
  else if includes p "/admin" then "admin"
  else "general".

Definition REDACTED : json := JStr "[REDACTED]".

Definition redact (k : string) (s : list (string * json)) : list (string * json) :=
  if truthy (lookup k s) then set k REDACTED s else s.

Definition sanitizeBody (b : json) : json :=
  if negb (truthy (Some b)) then JNull
  else
    let sanitized := spread b in
    let sanitized := redact "password" sanitized in
    let sanitized := redact "password_hash" sanitized in
    let sanitized := redact "token" sanitized in
    JObj sanitized.

(** [x.length] for the values that have one. *)
Definition js_length (v : option json) : option json :=
  match v with
  | Some (JArr l) => Some (JNum (Z.of_nat (List.length l)))
  | Some (JStr s) => Some (JNum (Z.of_nat (String.length s)))
  | _ => None
  end.

Definition sanitizeResponse (r : json) : json :=
  if negb (truthy (Some r)) then JNull
  else
    match r with
    | JObj _ | JArr _ =>
        JObj [("success", match get "success" r with Some v => v | None => JNull end);
              ("error", if truthy (get "error" r)
                        then match get "error" r with Some v => v | None => JNull end
                        else JNull);
              ("count", if truthy (get "count" r)
                        then match get "count" r with Some v => v | None => JNull end
                        else if truthy (js_length (get "data" r))
                        then match js_length (get "data" r) with
                             | Some v => v | None => JNull end
                        else JNull)]
    | _ => JNull
    end.

(** [res.json(body)] stores [body] and then calls the overridden
    [res.send] with the serialised string, which is the value left in
    [res.locals.responseBody] when the response finishes. *)
Definition recorded_body (r : response) : json := JStr (stringify (rbody r)).

Definition shouldAudit (req : request) (st : Z) (u : option ctx_user) : bool :=
  existsb (fun a => includes (method req) a || includes (path req) (to_lower a))
          AUDITABLE_ACTIONS
  || Z.leb 400 st
  || match u with Some _ => true | None => false end.

(** [req.params?.id || req.body?.id || null]. *)
Definition resource_id (req : request) : option json :=
  let pid := match params_id req with Some id => Some (JStr id) | None => None end in
  if truthy pid then pid
  else if truthy (get "id" (body req)) then get "id" (body req)
  else None.

Definition details (req : request) (r : response) : json :=
  JObj [("method", JStr (method req));
        ("path", JStr (path req));
        ("query", query_params req);
        ("body", sanitizeBody (body req));
        ("status_code", JNum (status r));
        ("response", sanitizeResponse (recorded_body r));
        ("ip_address", JStr (ip req));
        ("user_agent", JStr (user_agent req))].

(** The row the hook builds. The code reads [req.path] when the response
    finishes; for a request a router answered, Express has by then taken
    the router's mount path off it ([/api/v1/contracts/ct-1/lock] is seen
    as [/ct-1/lock]), so the code's [action], [module] and [details.path]
    carry that shorter path. This model keeps the full path in those
    three fields. *)
Definition audit_data (req : request) (r : response) (u : option ctx_user)
    (tid : string) : audit_row :=
  mkAuditRow tid
    (match u with Some cu => Some (cu_id cu) | None => None end)
    (method req ++ " " ++ path req)
    (match route_path req with Some p => p | None => path req end)
    (resource_id req)
    (extractModule (path req))
    (details req r).

(** The [res.on('finish')] hook.  [insert_ok] is the outcome of the
    [INSERT INTO audit_logs] promise; a rejection is caught and logged. *)
Definition on_finish (req : request) (r : response) (u : option ctx_user)
    (tenantId : option string) (insert_ok : bool) : list effect :=
  match tenantId with
  | Some tid =>
      if shouldAudit req (status r) u then
        EAuditInsert (audit_data req r u tid)
          :: (if insert_ok then [] else [EConsole "Audit log insertion failed:"])
      else []
  | None => []
  end.

Definition is_audit (x : effect) : bool :=
  match x with EAuditInsert _ => true | _ => false end.

Definition is_audit_or_log (x : effect) : bool :=
  match x with EAuditInsert _ | EConsole _ => true | _ => false end.

(** Number of audit rows the request tried to insert. *)
Definition audit_count (effs : list effect) : nat := List.length (filter is_audit effs).

(** The stored text of the [details] column. *)
Definition stored_details (row : audit_row) : string := stringify (a_details row).

End Audit.

(** ** The application pipeline ([server.js])

    [auditLogger] registers its finish hook, then [authenticate] and
    [tenantMiddleware] run at application level; each router runs
    [authenticate] again ([router.use(authenticate)]) before the route's
    optional [authorize(...)] and its handler.  A handler receives
    [req.user], [req.tenantId] and the request, and produces its effects
    and its response (errors passed to [next] included). *)

Module App.
Import Auth Tenant Audit.

Definition handler := ctx_user -> option string -> request -> list effect * response.

Definition finish (req : request) (effs : list effect) (r : response)
    (u : option ctx_user) (tid : option string) (insert_ok : bool)
  : list effect * response :=
  ((effs ++ on_finish req r u tid insert_ok)%list, r).

Definition app (e : env) (decode : string -> option jwt_claims) (d : db)
    (roles : option (list string)) (h : handler) (insert_ok : bool)
    (req : request) : list effect * response :=
  let '(e1, a1) := authenticate decode d (auth_header req) in
  match a1 with
  | Stop r => finish req e1 r None None insert_ok
  | Next u =>
      let '(e2, a2) := tenantMiddleware e d req (Some u) in
      match a2 with
      | Stop r => finish req (e1 ++ e2)%list r (Some u) None insert_ok
      | Next tid =>
          let '(e3, a3) := authenticate decode d (auth_header req) in
          match a3 with
          | Stop r => finish req (e1 ++ e2 ++ e3)%list r (Some u) tid insert_ok
          | Next u' =>
              let gate := match roles with
                          | Some rs => authorize rs (Some u')
                          | None => Next tt
                          end in
              match gate with
              | Stop r => finish req (e1 ++ e2 ++ e3)%list r (Some u') tid insert_ok
              | Next _ =>
                  let '(e4, r) := h u' tid req in
                  finish req (e1 ++ e2 ++ e3 ++ EHandler :: e4)%list r (Some u') tid insert_ok
              end
          end
      end
  end.

End App.

(** ** Tenant-scoped reads ([routes/contract.js], [routes/survey.js]) *)

Module Contracts.

Record contract_row := mkContract {
  c_id : string; c_tenant_id : string; c_vendor_id : string; c_status : string
}.
Record vendor_row := mkVendor { v_id : string; v_tenant_id : string; v_name : string }.
Record clause_row := mkClause { cl_contract_id : string; cl_number : string }.
Record version_row := mkVersion { cv_contract_id : string; cv_number : Z }.

Record tables := mkTables {
  contracts : list contract_row;
  vendors : list vendor_row;
  contract_clauses : list clause_row;
  contract_versions : list version_row
}.

Inductive get_result :=
| NotFound                                  (** 404 [Contract not found] *)
| Found (c : contract_row) (vendor_name : string)
        (clauses : list clause_row) (versions : list version_row).

(** [GET /api/v1/contracts/:id]: the contract is read with
    [WHERE c.id = $1 AND c.tenant_id = $2]; clauses and versions are read
    by contract id once the contract was found (row order aside). *)
Definition get_contract (t : tables) (tenantId id : string) : get_result :=
  let rows :=
    flat_map (fun c =>
      flat_map (fun v =>
        if String.eqb (c_vendor_id c) (v_id v) && String.eqb (c_id c) id
           && String.eqb (c_tenant_id c) tenantId
        then [(c, v_name v)] else []) (vendors t)) (contracts t) in
  match rows with
  | [] => NotFound
  | (c, vn) :: _ =>
      Found c vn
        (filter (fun cl => String.eqb (cl_contract_id cl) id) (contract_clauses t))
        (filter (fun cv => String.eqb (cv_contract_id cv) id) (contract_versions t))
  end.

End Contracts.

Module Surveys.
Import QArith.

Record survey_row := mkSurvey { s_id : string; s_tenant_id : string; s_status : string }.
Record survey_response_row := mkSurveyResponse {
  sr_id : string; sr_survey_id : string; sr_sentiment : Q
}.

Record tables := mkTables {
  surveys : list survey_row;
  survey_responses : list survey_response_row
}.

(** A survey response belongs to the tenant of its survey. *)
Definition response_tenant (t : tables) (r : survey_response_row) : option string :=
  match find (fun s => String.eqb (s_id s) (sr_survey_id r)) (surveys t) with
  | Some s => Some (s_tenant_id s)
  | None => None
  end.

Record analytics := mkAnalytics {
  an_status : Z;
  an_rows_read : list survey_response_row;   (** what the query returned *)
  an_total_responses : nat;
  an_average_sentiment : Q
}.

(** [GET /api/v1/surveys/:id/analytics]: reads
    [SELECT * FROM survey_responses WHERE survey_id = $1] and aggregates it
    (the float sum of [parseFloat] values is taken exactly here). *)
Definition survey_analytics (t : tables) (tenantId id : string) : analytics :=
  let rows := filter (fun r => String.eqb (sr_survey_id r) id) (survey_responses t) in
  let n := List.length rows in
  let avg := match n with
             | O => 0%Q
             | S _ => (fold_left (fun acc r => acc + sr_sentiment r) rows 0 / inject_Z (Z.of_nat n))%Q
             end in
  mkAnalytics 200 rows n avg.

(** [POST /api/v1/surveys/:id/responses] first checks
    [SELECT id, status FROM surveys WHERE id = $1 AND tenant_id = $2]. *)
Definition survey_visible (t : tables) (tenantId id : string) : bool :=
  existsb (fun s => String.eqb (s_id s) id && String.eqb (s_tenant_id s) tenantId)
          (surveys t).

End Surveys.

(** ** The global error handler ([middleware/errorHandler.js]) *)

Module ErrorHandler.

(** The fields of a thrown error that the handler reads. *)
Record js_error := mkJsError {
  err_name : string;
  err_message : string;
  err_code : option string;
  err_statusCode : option Z;
  err_status : option Z;
  err_detail : option json;
  err_stack : string
}.

Definition code_is (e : js_error) (c : string) : bool :=
  match err_code e with Some c' => String.eqb c' c | None => false end.

(** [err.statusCode || err.status || 500]: 0 is falsy. *)
Definition or_status (o : option Z) (dflt : Z) : Z :=
  match o with Some z => if Z.eqb z 0 then dflt else z | None => dflt end.

Definition with_detail (e : js_error) : list (string * json) :=
  match err_detail e with Some d => [("details", d)] | None => [] end.

Definition errorHandler (node_env : string) (e : js_error) : list effect * response :=
  ([EConsole "Error:"],
   if code_is e "23505" then
     mkResponse 409 (JObj ([("error", JStr "Resource already exists");
                            ("code", JStr "DUPLICATE_RESOURCE")] ++ with_detail e)%list)
   else if code_is e "23503" then
     mkResponse 400 (JObj ([("error", JStr "Invalid reference");
                            ("code", JStr "FOREIGN_KEY_VIOLATION")] ++ with_detail e)%list)
   (* [err.errors || err.message]: only the message is modelled. *)
   else if String.eqb (err_name e) "ValidationError" then
     mkResponse 400 (JObj [("error", JStr "Validation failed"); ("code", JStr "VALIDATION_ERROR");
                           ("details", JStr (err_message e))])
   else if String.eqb (err_name e) "JsonWebTokenError" then
     mkResponse 401 (JObj [("error", JStr "Invalid token"); ("code", JStr "INVALID_TOKEN")])
   else if String.eqb (err_name e) "TokenExpiredError" then
     mkResponse 401 (JObj [("error", JStr "Token expired"); ("code", JStr "TOKEN_EXPIRED")])
   else if code_is e "PERMISSION_DENIED" || includes (err_message e) "permission" then
     mkResponse 403 (JObj [("error", JStr "Permission denied"); ("code", JStr "PERMISSION_DENIED");
                           ("details", JStr (err_message e))])
   else if code_is e "ECONNREFUSED" || code_is e "ETIMEDOUT" then
     mkResponse 503 (JObj [("error", JStr "External service unavailable");
                           ("code", JStr "SERVICE_UNAVAILABLE");
                           ("message", JStr "The requested service is temporarily unavailable. Please try again later.");
                           ("retryable", JBool true)])
   else
     let statusCode := or_status (err_statusCode e) (or_status (err_status e) 500) in
     let message := if String.eqb (err_message e) EmptyString
                    then "Internal server error" else err_message e in
     let code := match err_code e with
                 | Some c => if String.eqb c EmptyString then "INTERNAL_ERROR" else c
                 | None => "INTERNAL_ERROR" end in
     mkResponse statusCode
       (JObj ([("error", JStr message); ("code", JStr code)] ++
              (if String.eqb node_env "development" then [("stack", JStr (err_stack e))] else []))%list)).


(** Errors of the [pg] driver: [name] is ['error'], [code] the SQLSTATE,
    and neither [statusCode] nor [status] is set. *)
Definition dq : string := String (Ascii.ascii_of_nat 34) EmptyString.
Definition quoted (s : string) : string := dq ++ s ++ dq.

Definition pg_error (code message : string) (detail : option string) : js_error :=
  mkJsError "error" message (Some code) None None (option_map JStr detail) ("error: " ++ message).

(** A [NOT NULL] violation. Its [detail] (the failing row) is not
    modelled: the handler does not read it for this code. *)
Definition pg_not_null (column table : string) : js_error :=
  pg_error "23502" ("null value in column " ++ quoted column ++ " of relation " ++
                    quoted table ++ " violates not-null constraint") None.

Definition pg_unique_violation (constraint detail : string) : js_error :=
  pg_error "23505" ("duplicate key value violates unique constraint " ++ quoted constraint)
           (Some detail).

Definition pg_foreign_key (table constraint detail : string) : js_error :=
  pg_error "23503" ("insert or update on table " ++ quoted table ++
                    " violates foreign key constraint " ++ quoted constraint) (Some detail).

(** [new Error(msg)]. *)
Definition js_Error (msg : string) : js_error :=
  mkJsError "Error" msg None None None None ("Error: " ++ msg).

End ErrorHandler.

(** ** Purchase orders and ERP sync ([routes/procurement.js]) *)

Module Procurement.

Record po_row := mkPO {
  po_id : string;
  po_tenant_id : string;
  po_number : string;
  po_vendor_id : string;
  total_amount : Z;
  currency : string;
  line_items : json;
  erp_system : option string;
  created_by : string;
  po_status : string;
  erp_sync_status : option string;
  erp_sync_error : option string;
  erp_po_id : option string
}.

Record sync_log := mkSyncLog {
  sl_integration_id : option string;
  sl_sync_type : string;
  sl_direction : string;
  sl_status : string;
  sl_records : Z
}.

(** The database tables touched here, the number of calls made so far to
    the ERP, and the trace of effects. *)
Record state := mkState {
  purchase_orders : list po_row;
  sync_logs : list sync_log;
  remote_calls : nat;
  trace : list effect
}.

(** Outcome of the n-th ERP call: [None] on success, [Some message] when
    it throws an error with that message. *)
Definition erp_oracle := nat -> option string.

(** A state and error monad: [Err e] is a thrown JavaScript error. An
    [Err] that leaves a route handler is the error its outer [catch]
    passes to [next], which [ErrorHandler.errorHandler] answers. *)
Inductive result (A : Type) := Ok (a : A) | Err (e : ErrorHandler.js_error).
Arguments Ok {A} a.
Arguments Err {A} e.

Definition M (A : Type) := state -> result A * state.

Definition ret {A} (a : A) : M A := fun s => (Ok a, s).
Definition bind {A B} (m : M A) (k : A -> M B) : M B :=
  fun s => match m s with
           | (Ok a, s') => k a s'
           | (Err e, s') => (Err e, s')
           end.
Definition throw {A} (e : ErrorHandler.js_error) : M A := fun s => (Err e, s).
(** [try { m } catch (e) { h(e) }] *)
Definition catch {A} (m : M A) (h : ErrorHandler.js_error -> M A) : M A :=
  fun s => match m s with
           | (Ok a, s') => (Ok a, s')
           | (Err e, s') => h e s'
           end.

Notation "x <- m ;; k" := (bind m (fun x => k)) (at level 61, m at next level, right associativity).
Notation "m ;;; k" := (bind m (fun _ => k)) (at level 61, right associativity).

Definition emit (x : effect) : M unit :=
  fun s => (Ok tt, mkState (purchase_orders s) (sync_logs s) (remote_calls s) (trace s ++ [x])%list).

Definition get_state : M state := fun s => (Ok s, s).

Definition set_pos (pos : list po_row) : M unit :=
  fun s => (Ok tt, mkState pos (sync_logs s) (remote_calls s) (trace s)).

(** [UPDATE purchase_orders SET ... WHERE id = $n]. *)
Definition update_po (id : string) (f : po_row -> po_row) : M unit :=
  s <- get_state ;;
  set_pos (map (fun p => if String.eqb (po_id p) id then f p else p) (purchase_orders s)) ;;;
  emit (EDbWrite "purchase_orders").

(** [UNIQUE(tenant_id, po_number)] of [purchase_orders]. *)
Definition number_taken (tenantId number : string) (pos : list po_row) : bool :=
  existsb (fun q => String.eqb (po_tenant_id q) tenantId && String.eqb (po_number q) number) pos.

(** [INSERT INTO purchase_orders ...]: a second PO number of the same
    tenant violates the unique constraint and nothing is written. *)
Definition insert_po (row : po_row) : M unit :=
  s <- get_state ;;
  if number_taken (po_tenant_id row) (po_number row) (purchase_orders s)
  then throw (ErrorHandler.pg_unique_violation "purchase_orders_tenant_id_po_number_key"
                ("Key (tenant_id, po_number)=(" ++ po_tenant_id row ++ ", " ++
                 po_number row ++ ") already exists."))
  else set_pos (purchase_orders s ++ [row])%list ;;;
       emit (EDbWrite "purchase_orders").

(** [INSERT INTO integration_sync_logs ...]: [integration_id] is
    [NOT NULL], so a null id is rejected and nothing is written. *)
Definition insert_sync_log (l : sync_log) : M unit :=
  match sl_integration_id l with
  | None => throw (ErrorHandler.pg_not_null "integration_id" "integration_sync_logs")
  | Some _ =>
      fun s => (Ok tt, mkState (purchase_orders s) (sync_logs s ++ [l])%list (remote_calls s)
                            (trace s ++ [EDbWrite "integration_sync_logs"])%list)
  end.

(** The simulated ERP request ([await new Promise(r => setTimeout(r, 500))],
    where the TODO places the SAP/Oracle/NetSuite call). *)
Definition erp_call (erp : erp_oracle) (target : string) : M unit :=
  fun s =>
    let n := remote_calls s in
    let s' := mkState (purchase_orders s) (sync_logs s) (S n)
                      (trace s ++ [ESleep 500; ERemote target])%list in
    match erp n with
    | None => (Ok tt, s')
    | Some msg => (Err (ErrorHandler.js_Error msg), s')
    end.

Definition set_synced (erpPoId : string) (p : po_row) : po_row :=
  mkPO (po_id p) (po_tenant_id p) (po_number p) (po_vendor_id p) (total_amount p)
       (currency p) (line_items p) (erp_system p) (created_by p) (po_status p)
       (Some "synced") (erp_sync_error p) (Some erpPoId).

Definition set_failed (msg : string) (p : po_row) : po_row :=
  mkPO (po_id p) (po_tenant_id p) (po_number p) (po_vendor_id p) (total_amount p)
       (currency p) (line_items p) (erp_system p) (created_by p) (po_status p)
       (Some "failed") (Some msg) (erp_po_id p).

(** The sync log is inserted with [integration_id] bound to [null]. *)
Definition syncPOToERP (erp : erp_oracle) (poId erpSystem : string) : M unit :=
  erp_call erp erpSystem ;;;
  let erpPoId := "ERP-" ++ String.substring 0 8 poId in
  update_po poId (set_synced erpPoId) ;;;
  insert_sync_log (mkSyncLog None "po" "push" "success" 1).

(** [String(n).padStart(w, '0')]. *)
Fixpoint zeros (n : nat) : string :=
  match n with O => EmptyString | S k => "0" ++ zeros k end.
Definition padStart5 (x : string) : string := zeros (5 - String.length x) ++ x.

(** The row count comes back from the driver as a string, so [count + 1]
    concatenates. *)
Definition poNumber (year count : string) : string :=
  "PO-" ++ year ++ "-" ++ padStart5 (count ++ "1").

(** The number of POs of the tenant, as the driver returns the count. *)
Definition tenant_count (tenantId : string) (pos : list po_row) : string :=
  z_to_string (Z.of_nat (List.length (filter (fun p => String.eqb (po_tenant_id p) tenantId) pos))).

Definition count_pos (tenantId : string) : M string :=
  s <- get_state ;;
  emit (EDbRead "purchase_orders") ;;;
  ret (tenant_count tenantId (purchase_orders s)).

(** The validated body. [body('currency').optional().default('USD')]:
    with [optional()] first, an absent currency skips the rest of the
    chain, [default('USD')] included, so [in_currency] is [None] and [$6]
    is bound to [null]. [contract_id] is not modelled: it is taken to be absent or an
    existing contract, as [vendor_id] is taken to name an existing vendor. *)
Record po_input := mkPOInput {
  in_vendor_id : string;
  in_total_amount : Z;
  in_currency : option string;
  in_line_items : json;
  in_erp_system : option string
}.

(** [POST /api/v1/procurement/purchase-orders] once validation and
    [authorize('buyer_admin', 'buyer_user')] passed; [newId] is the id the
    database assigns, [year] the current year. The inserted row takes the
    schema defaults: [erp_sync_status] is ['pending']; a null [currency]
    violates its [NOT NULL] constraint. *)
Definition create_po (erp : erp_oracle) (tenantId userId newId year : string)
    (i : po_input) : M response :=
  count <- count_pos tenantId ;;
  match in_currency i with
  | None => throw (ErrorHandler.pg_not_null "currency" "purchase_orders")
  | Some cur =>
      let po := mkPO newId tenantId (poNumber year count) (in_vendor_id i)
                     (in_total_amount i) cur (in_line_items i) (in_erp_system i) userId
                     "draft" (Some "pending") None None in
      insert_po po ;;;
      (match in_erp_system i with
       | Some sys =>
           if String.eqb sys EmptyString then ret tt
           else catch (syncPOToERP erp (po_id po) sys)
                      (fun err => emit (EConsole "ERP sync error:") ;;;
                                  update_po (po_id po) (set_failed (ErrorHandler.err_message err)))
       | None => ret tt
       end) ;;;
      ret (mkResponse 201 (JObj [("purchase_order", JStr (po_id po))]))
  end.

Definition find_po (tenantId id : string) : M (option po_row) :=
  s <- get_state ;;
  emit (EDbRead "purchase_orders") ;;;
  ret (find (fun p => String.eqb (po_id p) id && String.eqb (po_tenant_id p) tenantId)
            (purchase_orders s)).

(** [POST /api/v1/procurement/purchase-orders/:id/sync] once
    [authorize('buyer_admin')] passed. *)
Definition manual_sync (erp : erp_oracle) (tenantId id : string) : M response :=
  o <- find_po tenantId id ;;
  match o with
  | None => ret (mkResponse 404 (JObj [("error", JStr "Purchase order not found")]))
  | Some po =>
      match erp_system po with
      | None => ret (mkResponse 400 (JObj [("error", JStr "No ERP system configured for this PO")]))
      | Some sys =>
          if String.eqb sys EmptyString then
            ret (mkResponse 400 (JObj [("error", JStr "No ERP system configured for this PO")]))
          else
            catch (syncPOToERP erp id sys ;;;
                   ret (mkResponse 200 (JObj [("message", JStr "PO synced to ERP successfully")])))
                  (fun err => ret (mkResponse 503
                      (JObj [("error", JStr "ERP sync failed");
                             ("message", JStr (ErrorHandler.err_message err));
                             ("retryable", JBool true)])))
      end
  end.

Definition find_by_id (id : string) (pos : list po_row) : option po_row :=
  find (fun p => String.eqb (po_id p) id) pos.

Definition count_remote (tr : list effect) : nat :=
  List.length (filter (fun x => match x with ERemote _ => true | _ => false end) tr).

End Procurement.

(** ** Penalties ([routes/performance.js]) *)

Module Penalties.

Record penalty_row := mkPenalty {
  pe_id : string;
  pe_tenant_id : string;
  pe_vendor_id : string;
  pe_contract_id : option string;
  penalty_type : string;
  amount : Z;
  currency : string;
  reason : string;
  ai_suggested : bool;
  ai_rationale : string;
  pe_created_by : string;
  pe_status : string;
  approved_by : option string
}.




Definition penalty_fields (p : penalty_row) : list (string * json) :=
  [("id", JStr (pe_id p)); ("tenant_id", JStr (pe_tenant_id p));
        ("vendor_id", JStr (pe_vendor_id p)); ("penalty_type", JStr (penalty_type p));
        ("amount", JNum (amount p)); ("currency", JStr (currency p));
        ("reason", JStr (reason p)); ("ai_suggested", JBool (ai_suggested p));
        ("ai_rationale", JStr (ai_rationale p)); ("status", JStr (pe_status p))].

Definition penalty_json (p : penalty_row) : json := JObj (penalty_fields p).


(** [WHERE id = $2 AND tenant_id = $3 AND status = 'pending'] *)
Definition approvable (tenantId id : string) (p : penalty_row) : bool :=
  String.eqb (pe_id p) id && String.eqb (pe_tenant_id p) tenantId
  && String.eqb (pe_status p) "pending".

Definition approve_row (userId : string) (p : penalty_row) : penalty_row :=
  mkPenalty (pe_id p) (pe_tenant_id p) (pe_vendor_id p) (pe_contract_id p)
    (penalty_type p) (amount p) (currency p) (reason p) (ai_suggested p)
    (ai_rationale p) (pe_created_by p) "approved" (Some userId).

(** [POST /api/v1/performance/penalties/:id/approve] once
    [authorize('buyer_admin')] passed. *)
Definition approve_penalty (tenantId userId id : string) (tbl : list penalty_row)
    : list penalty_row * response :=
  let updated := filter (approvable tenantId id) tbl in
  match updated with
  | [] => (tbl, mkResponse 404 (JObj [("error", JStr "Penalty not found or cannot be approved")]))
  | p :: _ =>
      (map (fun q => if approvable tenantId id q then approve_row userId q else q) tbl,
       mkResponse 200 (JObj [("penalty", penalty_json (approve_row userId p));
                             ("message", JStr "Penalty approved")]))
  end.



End Penalties.

(** ** Risk assessments ([routes/risk.js]) *)

Module Risk.
Import QArith.

(** Outcome of the provider request made by the n-th attempt of one fetch
    (the request the code simulates after its 500 ms wait): a score, or an
    error with its message. *)
Inductive call_outcome := CallOk (score : Q) | CallErr (msg : string).
Definition risk_oracle := nat -> call_outcome.

Inductive fetch_result :=
| Fetched (risk_score : Q)
| FetchThrew (msg : string)
| FetchUndefined.

Definition maxAttempts : nat := 3.

(** The [while (attempts < maxAttempts)] loop of [fetchRiskData]; [fuel]
    bounds the iterations (the loop runs at most [maxAttempts] times from
    [attempts = 0]). *)
Fixpoint fetch_loop (o : risk_oracle) (fuel attempts : nat) : list effect * fetch_result :=
  if Nat.ltb attempts maxAttempts then
    match fuel with
    | O => ([], FetchUndefined)
    | S f =>
        match o attempts with
        | CallOk sc => ([ESleep 500; ERemote "risk-provider"], Fetched sc)
        | CallErr msg =>
            let attempts' := S attempts in
            if Nat.leb maxAttempts attempts' then
              ([ESleep 500; ERemote "risk-provider"],
               FetchThrew ("Failed to fetch risk data after " ++ nat_to_string maxAttempts ++
                           " attempts: " ++ msg))
            else
              let '(e, r) := fetch_loop o f attempts' in
              (ESleep 500 :: ERemote "risk-provider"
                 :: ESleep (Z.pow 2 (Z.of_nat attempts') * 1000) :: e, r)
        end
    end
  else ([], FetchUndefined).

Definition fetchRiskData (o : risk_oracle) : list effect * fetch_result :=
  fetch_loop o maxAttempts 0.

Definition calculateRiskLevel (riskScore : Q) : string :=
  if Qle_bool 75 riskScore then "critical"
  else if Qle_bool 50 riskScore then "high"
  else if Qle_bool 25 riskScore then "medium"
  else "low".

Record assessment_row := mkAssessment {
  ra_tenant_id : string;
  ra_vendor_id : string;
  ra_risk_score : Q;
  ra_risk_level : string;
  ra_provider : string
}.

Record master_row := mkMaster {
  vm_vendor_id : string;
  vm_risk_score : Q;
  vm_risk_level : string
}.

(** [vendor_ids] lists the ids of the [vendors] table, of every tenant:
    the foreign key of [vendor_risk_assessments] and the [SELECT] of
    [updateVendorMaster] look vendors up by id alone. *)
Record tables := mkTables {
  vendor_ids : list string;
  vendor_risk_assessments : list assessment_row;
  vendor_master_consolidated : list master_row;
  risk_alerts : list (string * string)
}.

(** [INSERT ... SELECT ... FROM vendors WHERE v.id = $3 ON CONFLICT
    (vendor_id) DO UPDATE]: nothing when the vendor does not exist. *)
Definition updateVendorMaster (vendorId : string) (riskScore : Q) (riskLevel : string)
    (t : tables) : tables :=
  let row := mkMaster vendorId riskScore riskLevel in
  let vm := vendor_master_consolidated t in
  let vm' :=
    if existsb (String.eqb vendorId) (vendor_ids t) then
      if existsb (fun r => String.eqb (vm_vendor_id r) vendorId) vm
      then map (fun r => if String.eqb (vm_vendor_id r) vendorId then row else r) vm
      else (vm ++ [row])%list
    else vm in
  mkTables (vendor_ids t) (vendor_risk_assessments t) vm' (risk_alerts t).

(** The alert insert builds its parameter list from [req.tenantId], but no
    [req] is in scope in this helper: evaluating the arguments throws a
    [ReferenceError] before the query runs. *)
Definition req_not_defined : ErrorHandler.js_error :=
  ErrorHandler.mkJsError "ReferenceError" "req is not defined" None None None None
    "ReferenceError: req is not defined".

Definition checkRiskThresholds (vendorId : string) (riskScore : Q) (riskLevel : string)
    : option ErrorHandler.js_error :=
  if String.eqb riskLevel "critical" || String.eqb riskLevel "high"
  then Some req_not_defined else None.

(** [riskData.risk_score] on the [undefined] a finished loop returns. *)
Definition undefined_read : ErrorHandler.js_error :=
  ErrorHandler.mkJsError "TypeError" "Cannot read properties of undefined (reading 'risk_score')"
    None None None None "TypeError".

(** The assessment insert with a [vendor_id] absent from [vendors]. *)
Definition vendor_fk_error (vendorId : string) : ErrorHandler.js_error :=
  ErrorHandler.pg_foreign_key "vendor_risk_assessments" "vendor_risk_assessments_vendor_id_fkey"
    ("Key (vendor_id)=(" ++ vendorId ++ ") is not present in table " ++
     ErrorHandler.quoted "vendors" ++ ".").

Definition assessment_json (a : assessment_row) : json :=
  JObj [("tenant_id", JStr (ra_tenant_id a)); ("vendor_id", JStr (ra_vendor_id a));
        ("risk_level", JStr (ra_risk_level a)); ("provider", JStr (ra_provider a))].

(** [POST /api/v1/risk/assessments] once validation and
    [authorize('buyer_admin')] passed. *)
Definition create_assessment (node_env : string) (o : risk_oracle)
    (tenantId vendorId provider : string) (t : tables) : list effect * tables * response :=
  let '(e1, fr) := fetchRiskData o in
  match fr with
  | FetchThrew msg =>
      (e1, t, mkResponse 503 (JObj [("error", JStr "Risk provider unavailable");
                                   ("message", JStr msg); ("retryable", JBool true)]))
  | FetchUndefined =>
      let '(e2, r) := ErrorHandler.errorHandler node_env undefined_read in
      ((e1 ++ e2)%list, t, r)
  | Fetched sc =>
      let riskLevel := calculateRiskLevel sc in
      let a := mkAssessment tenantId vendorId sc riskLevel provider in
      if negb (existsb (String.eqb vendorId) (vendor_ids t)) then
        let '(e2, r) := ErrorHandler.errorHandler node_env (vendor_fk_error vendorId) in
        ((e1 ++ e2)%list, t, r)
      else
        let t1 := mkTables (vendor_ids t) (vendor_risk_assessments t ++ [a])%list
                           (vendor_master_consolidated t) (risk_alerts t) in
        let t2 := updateVendorMaster vendorId sc riskLevel t1 in
        let e2 := [EDbWrite "vendor_risk_assessments"; EDbWrite "vendor_master_consolidated"] in
        match checkRiskThresholds vendorId sc riskLevel with
        | Some err =>
            let '(e3, r) := ErrorHandler.errorHandler node_env err in
            ((e1 ++ e2 ++ e3)%list, t2, r)
        | None =>
            ((e1 ++ e2)%list, t2, mkResponse 201 (JObj [("assessment", assessment_json a)]))
        end
  end.

Definition sleep_total (tr : list effect) : Z :=
  fold_right (fun x acc => match x with ESleep ms => (ms + acc)%Z | _ => acc end) 0%Z tr.

End Risk.

(** ** Contract creation and locking ([routes/contract.js]) *)

Module ContractRoutes.

Record contract := mkContractRow {
  ct_id : string;
  ct_tenant_id : string;
  ct_number : string;
  ct_vendor_id : string;
  ct_type : string;
  ct_content : string;
  ct_template_version : option string;
  ct_ai_generated : bool;
  ct_ai_rationale : option string;
  ct_created_by : string;
  ct_status : string;
  ct_locked_by : option string
}.

Record clause := mkClauseRow {
  ccl_contract_id : string;
  ccl_number : string;
  ccl_title : string;
  ccl_content : string;
  ccl_type : string;
  ccl_source : string;
  ccl_ai_generated : bool;
  ccl_ai_rationale : option string
}.

Record version := mkVersionRow {
  ver_contract_id : string;
  ver_number : Z;
  ver_content : string;
  ver_changed_by : string;
  ver_summary : string
}.

Record tables := mkTables {
  contracts : list contract;
  contract_clauses : list clause;
  contract_versions : list version
}.







(** [WHERE id = $2 AND tenant_id = $3 AND status = 'in_review'] *)
Definition lockable (tenantId id : string) (c : contract) : bool :=
  String.eqb (ct_id c) id && String.eqb (ct_tenant_id c) tenantId
  && String.eqb (ct_status c) "in_review".

Definition lock_row (userId : string) (c : contract) : contract :=
  mkContractRow (ct_id c) (ct_tenant_id c) (ct_number c) (ct_vendor_id c) (ct_type c)
    (ct_content c) (ct_template_version c) (ct_ai_generated c) (ct_ai_rationale c)
    (ct_created_by c) "locked" (Some userId).

(** [COALESCE((SELECT MAX(version_number) ... WHERE contract_id = $1), 0)] *)
Definition max_version (id : string) (vs : list version) : Z :=
  match map ver_number (filter (fun v => String.eqb (ver_contract_id v) id) vs) with
  | [] => 0
  | n :: ns => fold_left Z.max ns n
  end.

(** [POST /api/v1/contracts/:id/lock] once [authorize('buyer_admin')]
    passed.  The snapshot is [INSERT ... SELECT ... FROM contracts WHERE
    id = $1]: one version per contract row with that id. *)
Definition lock_contract (tenantId userId id : string) (t : tables) : tables * response :=
  match filter (lockable tenantId id) (contracts t) with
  | [] => (t, mkResponse 404 (JObj [("error", JStr "Contract not found or cannot be locked")]))
  | c :: _ =>
      let cs := map (fun q => if lockable tenantId id q then lock_row userId q else q)
                    (contracts t) in
      let n := (max_version id (contract_versions t) + 1)%Z in
      let snaps := map (fun q => mkVersionRow id n (ct_content q) userId "Contract locked")
                       (filter (fun q => String.eqb (ct_id q) id) cs) in
      (mkTables cs (contract_clauses t) (contract_versions t ++ snaps)%list,
       mkResponse 200 (JObj [("contract", JStr (ct_id (lock_row userId c)));
                             ("message", JStr "Contract locked successfully")]))
  end.

End ContractRoutes.

(** ** Vendor onboarding ([routes/procurement.js]) *)

Module Onboarding.






End Onboarding.

(** ** Survey responses ([routes/survey.js]) *)

Module SurveyRoutes.
Import Surveys.



End SurveyRoutes.

(** ** Purchase order listing ([routes/procurement.js]) *)

Module POList.
Import Procurement.



End POList.

(** ** Concrete configurations used to exercise the model *)

Module Fixtures.
Import Auth.

Definition env0 : Tenant.env := Tenant.mkEnv "production" None.

(** Tokens: [tok-a] and [tok-b] are valid for users of tenants A and B,
    [tok-expired] is well signed but expired, [tok-forged] has a bad
    signature; anything else does not decode. *)
Definition decode0 (tok : string) : option jwt_claims :=
  if String.eqb tok "tok-a" then Some (mkJwt "user-a" true false)
  else if String.eqb tok "tok-b" then Some (mkJwt "user-b" true false)
  else if String.eqb tok "tok-expired" then Some (mkJwt "user-a" true true)
  else if String.eqb tok "tok-forged" then Some (mkJwt "user-a" false false)
  else None.

Definition db0 : db :=
  mkDb [mkUserRow "user-a" "a@tenant-a.example" "tenant-a" "buyer_admin" "active";
        mkUserRow "user-b" "b@tenant-b.example" "tenant-b" "buyer_admin" "active"]
       [mkTenantRow "tenant-a" "Tenant A" "active" "us";
        mkTenantRow "tenant-b" "Tenant B" "active" "eu"].

Definition handler_created : App.handler :=
  fun _ _ _ => ([EDbWrite "integrations"], mkResponse 201 (JObj [("integration", JObj [])])).

Definition mk_req (m p : string) (hdr : option string) (b : json) : request :=
  mkRequest m p None hdr None b (JObj []) "10.0.0.1" "curl/8".

(** Creating an integration whose configuration carries an API token. *)
Definition req_integration : request :=
  mk_req "POST" "/api/v1/integrations" (Some "Bearer tok-a")
    (JObj [("name", JStr "SAP"); ("type", JStr "ERP"); ("system", JStr "SAP");
           ("configuration", JObj [("token", JStr "sk-live-123")]);
           ("password", JStr "hunter2")]).

Definition surveys0 : Surveys.tables :=
  Surveys.mkTables
    [Surveys.mkSurvey "survey-a" "tenant-a" "active";
     Surveys.mkSurvey "survey-b" "tenant-b" "active"]
    [Surveys.mkSurveyResponse "resp-1" "survey-b" (QArith_base.Qmake 80 1);
     Surveys.mkSurveyResponse "resp-2" "survey-b" (QArith_base.Qmake 60 1)].

Definition erp_up : Procurement.erp_oracle := fun _ => None.
Definition po_state0 : Procurement.state := Procurement.mkState [] [] 0 [].
Definition po_input0 : Procurement.po_input :=
  Procurement.mkPOInput "vendor-1" 1200 (Some "USD") (JArr [JStr "item"]) (Some "SAP").
Definition po_created_state : Procurement.state :=
  snd (Procurement.create_po erp_up "tenant-a" "user-a" "0f1e2d3c-aaaa" "2026" po_input0 po_state0).

(** A risk provider that always times out, one that returns a score of
    82 (level [critical]), and a tenant's risk tables with one vendor. *)
Definition risk_down : Risk.risk_oracle := fun _ => Risk.CallErr "ETIMEDOUT".
Definition risk_tables0 : Risk.tables := Risk.mkTables ["vendor-1"] [] [] [].

(** An ERP that refuses every call, a PO request with no ERP system, a
    contract of tenant A under review with one earlier version, and a
    completed onboarding of vendor-1 in tenant A. *)
Definition erp_down : Procurement.erp_oracle := fun _ => Some "ECONNREFUSED".
Definition contracts0 : ContractRoutes.tables :=
  ContractRoutes.mkTables
    [ContractRoutes.mkContractRow "ct-1" "tenant-a" "MSA-2026-00001" "vendor-1" "MSA" "Terms"
       None false None "user-a" "in_review" None]
    []
    [ContractRoutes.mkVersionRow "ct-1" 1 "Draft terms" "user-a" "Initial draft"].

End Fixtures.

(** * Properties *)

Module Facts.

Lemma substring_all (s : string) : String.substring 0 (String.length s) s = s.
Proof. induction s as [|c s IH]; simpl; [reflexivity | now rewrite IH]. Qed.

Lemma bearer_token (tok : string) :
  String.substring 7 (String.length ("Bearer " ++ tok) - 7) ("Bearer " ++ tok) = tok.
Proof.
  simpl. rewrite Nat.sub_0_r. apply substring_all.
Qed.

Lemma bearer_prefix (tok : string) : String.prefix "Bearer " ("Bearer " ++ tok) = true.
Proof. destruct tok; reflexivity. Qed.

Lemma role_in_spec (roles : list string) (r : string) :
  Auth.role_in roles r = true <-> In r roles.
Proof.
  unfold Auth.role_in. rewrite existsb_exists. split.
  - intros [x [Hx Heq]]. apply String.eqb_eq in Heq. now subst.
  - intros H. exists r. split; [exact H | apply String.eqb_refl].
Qed.

Lemma on_finish_no_tenant req r u ok : Audit.on_finish req r u None ok = [].
Proof. reflexivity. Qed.

(** Whatever [authenticate] does, a user lookup or a success only follows
    a token that [jwt.verify] accepted. *)
Ltac close_in Hin :=
  let H := fresh in let u := fresh in let Hu := fresh in
  simpl in Hin; destruct Hin as [H|[u Hu]];
  [repeat (destruct H as [H|H]; [discriminate|]); contradiction | discriminate].

Lemma authenticate_lookup_after_verify decode d hdr e a :
  Auth.authenticate decode d hdr = (e, a) ->
  (In (EDbRead "users") e \/ exists u, a = Next u) ->
  exists h uid, hdr = Some h /\ String.prefix "Bearer " h = true /\
    Auth.jwt_verify decode (String.substring 7 (String.length h - 7) h) = Auth.JwtOk uid.
Proof.
  unfold Auth.authenticate. intros Ha Hin.
  destruct hdr as [h|]; [|inversion Ha; subst; close_in Hin].
  destruct (String.prefix "Bearer " h) eqn:Hp; simpl in Ha; [|inversion Ha; subst; close_in Hin].
  destruct (Auth.jwt_verify decode _) as [uid|name] eqn:Hv.
  - exists h, uid. auto.
  - destruct (String.eqb name "JsonWebTokenError" || String.eqb name "TokenExpiredError");
      inversion Ha; subst; close_in Hin.
Qed.

Lemma authenticate_no_handler decode d hdr e a :
  Auth.authenticate decode d hdr = (e, a) -> ~ In EHandler e.
Proof.
  unfold Auth.authenticate. intros Ha.
  destruct hdr as [h|]; [|inversion Ha; subst; simpl; tauto].
  destruct (String.prefix "Bearer " h); simpl in Ha; [|inversion Ha; subst; simpl; tauto].
  destruct (Auth.jwt_verify decode _) as [uid|name].
  - inversion Ha; subst. simpl. intros [H|H]; [discriminate|contradiction].
  - destruct (String.eqb name "JsonWebTokenError" || String.eqb name "TokenExpiredError");
      inversion Ha; subst; simpl; [tauto|]. intros [H|H]; [discriminate|contradiction].
Qed.

Lemma lookup_set_same k v s : lookup k (set k v s) = Some v.
Proof.
  induction s as [|[k' v'] s IH]; simpl.
  - now rewrite String.eqb_refl.
  - destruct (String.eqb k k') eqn:E; simpl; [now rewrite E|now rewrite E].
Qed.

Lemma lookup_set_other k k' v s : k <> k' -> lookup k (set k' v s) = lookup k s.
Proof.
  intros Hne. induction s as [|[k'' v''] s IH]; simpl.
  - apply String.eqb_neq in Hne. now rewrite Hne.
  - destruct (String.eqb k' k'') eqn:E; simpl.
    + apply String.eqb_eq in E; subst k''. apply String.eqb_neq in Hne. now rewrite Hne.
    + now rewrite IH.
Qed.

Lemma lookup_redact_other k k' s : k <> k' -> lookup k (Audit.redact k' s) = lookup k s.
Proof.
  intros Hne. unfold Audit.redact. destruct (truthy (lookup k' s)); [|reflexivity].
  now apply lookup_set_other.
Qed.

Lemma redact_truthy k s :
  truthy (lookup k (Audit.redact k s)) = true -> lookup k (Audit.redact k s) = Some Audit.REDACTED.
Proof.
  unfold Audit.redact. destruct (truthy (lookup k s)) eqn:E.
  - intros _. apply lookup_set_same.
  - now rewrite E.
Qed.

(** A top-level credential field of the sanitised body that is still
    truthy holds the placeholder. *)
Lemma sanitizeBody_top_level (b : json) (k : string) :
  In k ["password"; "password_hash"; "token"] ->
  truthy (get k (Audit.sanitizeBody b)) = true ->
  get k (Audit.sanitizeBody b) = Some Audit.REDACTED.
Proof.
  unfold Audit.sanitizeBody. destruct (negb (truthy (Some b))); [simpl; discriminate|].
  simpl. intros [<-|[<-|[<-|[]]]].
  - rewrite !lookup_redact_other by discriminate. apply redact_truthy.
  - rewrite lookup_redact_other by discriminate. apply redact_truthy.
  - apply redact_truthy.
Qed.

Lemma authenticate_effects decode d hdr e a :
  Auth.authenticate decode d hdr = (e, a) ->
  forall x, In x e -> x = EDbRead "users" \/ x = EConsole "Auth middleware error:".
Proof.
  unfold Auth.authenticate. intros Ha x Hx.
  destruct hdr as [h|]; [|inversion Ha; subst; destruct Hx].
  destruct (String.prefix "Bearer " h); simpl in Ha; [|inversion Ha; subst; destruct Hx].
  destruct (Auth.jwt_verify decode _) as [uid|name].
  - inversion Ha; subst. destruct Hx as [<-|[]]. now left.
  - destruct (String.eqb name "JsonWebTokenError" || String.eqb name "TokenExpiredError");
      inversion Ha; subst; [destruct Hx|]. destruct Hx as [<-|[]]. now right.
Qed.

Lemma tenant_effects e d req u eff a :
  Tenant.tenantMiddleware e d req u = (eff, a) -> forall x, In x eff -> x = EDbRead "tenants".
Proof.
  unfold Tenant.tenantMiddleware. intros Ht x Hx.
  destruct (String.prefix "/api/v1/auth" (path req)); [inversion Ht; subst; destruct Hx|].
  match type of Ht with
  | (match ?t with _ => _ end) = _ => destruct t
  end; inversion Ht; subst; [destruct Hx as [<-|[]]; reflexivity | destruct Hx].
Qed.

Lemma tenant_next_some e d req u eff tid :
  String.prefix "/api/v1/auth" (path req) = false ->
  Tenant.tenantMiddleware e d req u = (eff, Next tid) -> exists t, tid = Some t.
Proof.
  unfold Tenant.tenantMiddleware. intros Hp Ht. rewrite Hp in Ht.
  match type of Ht with
  | (match ?t with _ => _ end) = _ => destruct t
  end; inversion Ht; subst.
  destruct (Tenant.find_tenant d _) as [t|]; [|discriminate].
  destruct (negb (String.eqb (Auth.t_status t) "active")); [discriminate|].
  inversion H1. eauto.
Qed.

Lemma app_split e decode d roles h req :
  exists pre r u tid, forall ok,
    App.app e decode d roles h ok req = ((pre ++ Audit.on_finish req r u tid ok)%list, r).
Proof.
  unfold App.app, App.finish.
  destruct (Auth.authenticate decode d (auth_header req)) as [e1 [u|r]];
    [|exists e1, r, None, None; reflexivity].
  destruct (Tenant.tenantMiddleware e d req (Some u)) as [e2 [tid|r]];
    [|exists (e1 ++ e2)%list, r, (Some u), None; reflexivity].
  (* the router-level [authenticate] repeats the application-level one *)
  destruct (match roles with Some rs => Auth.authorize rs (Some u) | None => Next tt end)
    as [[]|r]; [|exists (e1 ++ e2 ++ e1)%list, r, (Some u), tid; reflexivity].
  destruct (h u tid req) as [e4 r].
  exists (e1 ++ e2 ++ e1 ++ EHandler :: e4)%list, r, (Some u), tid. reflexivity.
Qed.

Lemma on_finish_effects req r u tid ok x :
  In x (Audit.on_finish req r u tid ok) ->
  Audit.is_audit_or_log x = true.
Proof.
  unfold Audit.on_finish. destruct tid; [|intros []].
  destruct (Audit.shouldAudit req (status r) u); [|intros []].
  intros [<-|Hx]; [reflexivity|]. destruct ok; [destruct Hx|]. destruct Hx as [<-|[]]. reflexivity.
Qed.

Lemma middleware_effects_no_handler decode d e req u hdr e1 a1 e2 a2 x :
  Auth.authenticate decode d hdr = (e1, a1) ->
  Tenant.tenantMiddleware e d req u = (e2, a2) ->
  In x (e1 ++ e2) -> Audit.is_audit x = false /\ x <> EHandler.
Proof.
  intros H1 H2 Hx. apply in_app_or in Hx as [Hx|Hx].
  - destruct (authenticate_effects _ _ _ _ _ H1 x Hx) as [->| ->]; split; easy.
  - rewrite (tenant_effects _ _ _ _ _ _ H2 x Hx). split; easy.
Qed.

Lemma on_finish_no_handler req r u tid ok : ~ In EHandler (Audit.on_finish req r u tid ok).
Proof. intros H. apply on_finish_effects in H. discriminate. Qed.

Lemma middleware3_effects decode d e req u hdr e1 a1 e2 a2 x :
  Auth.authenticate decode d hdr = (e1, a1) ->
  Tenant.tenantMiddleware e d req u = (e2, a2) ->
  In x (e1 ++ e2 ++ e1) -> Audit.is_audit x = false /\ x <> EHandler.
Proof.
  intros H1 H2 Hx. rewrite app_assoc in Hx. apply in_app_or in Hx as [Hx|Hx].
  - eapply middleware_effects_no_handler; eauto.
  - eapply middleware_effects_no_handler; eauto. apply in_or_app; now left.
Qed.

(** A request whose trace shows the handler ran went through both
    middlewares with a resolved tenant, and the audit hook closes it. *)
Lemma app_reaches_handler e decode d roles h ok req effs r :
  String.prefix "/api/v1/auth" (path req) = false ->
  App.app e decode d roles h ok req = (effs, r) -> In EHandler effs ->
  exists pre u t e4,
    effs = (pre ++ EHandler :: e4 ++ Audit.on_finish req r (Some u) (Some t) ok)%list /\
    (forall x, In x pre -> Audit.is_audit x = false) /\ h u (Some t) req = (e4, r).
Proof.
  unfold App.app, App.finish. intros Hp Happ Hin.
  destruct (Auth.authenticate decode d (auth_header req)) as [e1 [u|r1]] eqn:Ha.
  2:{ inversion Happ; subst. exfalso. apply in_app_or in Hin as [Hin|Hin];
      [exact (authenticate_no_handler _ _ _ _ _ Ha Hin)
      | first [exact (on_finish_no_handler _ _ _ _ _ Hin) | destruct Hin
               | destruct (Audit.shouldAudit _ _ _); destruct ok; simpl in Hin;
                 intuition discriminate]]. }
  destruct (Tenant.tenantMiddleware e d req (Some u)) as [e2 [tid|r2]] eqn:Ht.
  2:{ inversion Happ; subst. exfalso. apply in_app_or in Hin as [Hin|Hin];
      [exact (proj2 (middleware_effects_no_handler _ _ _ _ _ _ _ _ _ _ _ Ha Ht Hin) eq_refl)
      | first [exact (on_finish_no_handler _ _ _ _ _ Hin) | destruct Hin
               | destruct (Audit.shouldAudit _ _ _); destruct ok; simpl in Hin;
                 intuition discriminate]]. }
  destruct (tenant_next_some _ _ _ _ _ _ Hp Ht) as [t ->].
  destruct (match roles with Some rs => Auth.authorize rs (Some u) | None => Next tt end)
    as [[]|r3].
  2:{ inversion Happ; subst. exfalso. apply in_app_or in Hin as [Hin|Hin];
      [exact (proj2 (middleware3_effects _ _ _ _ _ _ _ _ _ _ _ Ha Ht Hin) eq_refl)
      | first [exact (on_finish_no_handler _ _ _ _ _ Hin) | destruct Hin
               | destruct (Audit.shouldAudit _ _ _); destruct ok; simpl in Hin;
                 intuition discriminate]]. }
  destruct (h u (Some t) req) as [e4 r4] eqn:Hh. inversion Happ; subst.
  exists (e1 ++ e2 ++ e1)%list, u, t, e4. split; [|split].
  - rewrite <- !app_assoc. reflexivity.
  - intros x Hx. eapply middleware3_effects; eauto.
  - exact Hh.
Qed.

Lemma audit_count_app l1 l2 :
  Audit.audit_count (l1 ++ l2) = (Audit.audit_count l1 + Audit.audit_count l2)%nat.
Proof. unfold Audit.audit_count. now rewrite filter_app, length_app. Qed.

Lemma audit_count_zero l :
  (forall x, In x l -> Audit.is_audit x = false) -> Audit.audit_count l = 0.
Proof.
  intros H. unfold Audit.audit_count.
  induction l as [|y l IH]; [reflexivity|]. simpl.
  rewrite (H y (or_introl eq_refl)). apply IH. intros x Hx. apply H. now right.
Qed.

Lemma flat_map_nil {A B} (f : A -> list B) (l : list A) :
  (forall x, In x l -> f x = []) -> flat_map f l = [].
Proof.
  induction l as [|x l IH]; intros H; [reflexivity|]. simpl.
  rewrite (H x (or_introl eq_refl)). apply IH. intros y Hy. apply H. now right.
Qed.

End Facts.

(** Purchase orders: lookups after an update or an insert, and the
    effect of one ERP sync, failing or succeeding. *)
Module ProcFacts.
Import Procurement.
#[local] Arguments poNumber : simpl never.

Lemma find_map_upd (id : string) (f : po_row -> po_row) (l : list po_row) :
  (forall p, po_id (f p) = po_id p) ->
  find_by_id id (map (fun p => if String.eqb (po_id p) id then f p else p) l) =
  option_map f (find_by_id id l).
Proof.
  intros Hf. unfold find_by_id. induction l as [|p l IH]; [reflexivity|]. simpl.
  destruct (String.eqb (po_id p) id) eqn:E.
  - now rewrite Hf, E.
  - now rewrite E.
Qed.


Lemma find_tenant (id t : string) (l : list po_row) (p : po_row) :
  find_by_id id l = Some p -> po_tenant_id p = t ->
  find (fun q => String.eqb (po_id q) id && String.eqb (po_tenant_id q) t) l = Some p.
Proof.
  unfold find_by_id. induction l as [|q l IH]; simpl; intros Hf Ht; [discriminate|].
  destruct (String.eqb (po_id q) id) eqn:E.
  - injection Hf as <-. now rewrite Ht, String.eqb_refl.
  - now apply IH.
Qed.

Lemma bind_catch_err {A B} (m : M A) h (k : A -> M B) s e s' :
  m s = (Err e, s') -> bind (catch m h) k s = bind (h e) k s'.
Proof. intros H. unfold bind, catch. now rewrite H. Qed.

#[local] Arguments tenant_count : simpl never.
#[local] Arguments number_taken : simpl never.

Lemma sync_fail erp id sys s msg : erp (remote_calls s) = Some msg ->
  syncPOToERP erp id sys s =
    (Err (ErrorHandler.js_Error msg),
     mkState (purchase_orders s) (sync_logs s) (S (remote_calls s))
             (trace s ++ [ESleep 500; ERemote sys])%list).
Proof. intros H. unfold syncPOToERP, bind, erp_call. now rewrite H. Qed.

(** When the ERP call succeeds, the PO is marked synced and the sync log
    insert then fails on its null [integration_id]. *)
Lemma sync_log_fails erp id sys s : erp (remote_calls s) = None ->
  syncPOToERP erp id sys s =
    (Err (ErrorHandler.pg_not_null "integration_id" "integration_sync_logs"),
     mkState (map (fun q => if String.eqb (po_id q) id
                            then set_synced ("ERP-" ++ String.substring 0 8 id) q else q)
                  (purchase_orders s))
             (sync_logs s) (S (remote_calls s))
             (trace s ++ [ESleep 500; ERemote sys; EDbWrite "purchase_orders"])%list).
Proof.
  intros H. unfold syncPOToERP, bind, erp_call. rewrite H. cbn.
  rewrite <- !app_assoc. reflexivity.
Qed.

Lemma catch_bind_ok {A B} (m : M A) (k : A -> M B) h s a s' :
  m s = (Ok a, s') -> catch (bind m k) h s = catch (k a) h s'.
Proof. intros H. unfold catch, bind. now rewrite H. Qed.

Lemma catch_bind_err {A B} (m : M A) (k : A -> M B) h s e s' :
  m s = (Err e, s') -> catch (bind m k) h s = h e s'.
Proof. intros H. unfold catch, bind. now rewrite H. Qed.

Lemma bind_catch_ok {A B} (m : M A) h (k : A -> M B) s a s' :
  m s = (Ok a, s') -> bind (catch m h) k s = k a s'.
Proof. intros H. unfold bind, catch. now rewrite H. Qed.


#[local] Abbreviation new_row s tenantId userId newId year i cur :=
  (mkPO newId tenantId (poNumber year (tenant_count tenantId (purchase_orders s)))
        (in_vendor_id i) (in_total_amount i) cur (in_line_items i) (in_erp_system i) userId
        "draft" (Some "pending") None None) (only parsing).







Lemma manual_sync_erp_fail erp s tenantId id sys p msg :
  find_by_id id (purchase_orders s) = Some p -> po_tenant_id p = tenantId ->
  erp_system p = Some sys -> String.eqb sys EmptyString = false ->
  erp (remote_calls s) = Some msg ->
  manual_sync erp tenantId id s =
    (Ok (mkResponse 503 (JObj [("error", JStr "ERP sync failed"); ("message", JStr msg);
                               ("retryable", JBool true)])),
     mkState (purchase_orders s) (sync_logs s) (S (remote_calls s))
             (trace s ++ [EDbRead "purchase_orders"; ESleep 500; ERemote sys])%list).
Proof.
  intros Hp Ht Hs Hne Hf. unfold manual_sync, find_po. cbn.
  rewrite (find_tenant _ _ _ _ Hp Ht), Hs, Hne.
  erewrite catch_bind_err by (apply sync_fail; exact Hf). cbn.
  rewrite <- !app_assoc. reflexivity.
Qed.

Lemma manual_sync_erp_ok erp s tenantId id sys p :
  find_by_id id (purchase_orders s) = Some p -> po_tenant_id p = tenantId ->
  erp_system p = Some sys -> String.eqb sys EmptyString = false ->
  erp (remote_calls s) = None ->
  manual_sync erp tenantId id s =
    (Ok (mkResponse 503 (JObj [("error", JStr "ERP sync failed");
           ("message", JStr (ErrorHandler.err_message
                              (ErrorHandler.pg_not_null "integration_id" "integration_sync_logs")));
           ("retryable", JBool true)])),
     mkState (map (fun q => if String.eqb (po_id q) id
                            then set_synced ("ERP-" ++ String.substring 0 8 id) q else q)
                  (purchase_orders s))
             (sync_logs s) (S (remote_calls s))
             (trace s ++ [EDbRead "purchase_orders"; ESleep 500; ERemote sys;
                          EDbWrite "purchase_orders"])%list).
Proof.
  intros Hp Ht Hs Hne Hok. unfold manual_sync, find_po. cbn.
  rewrite (find_tenant _ _ _ _ Hp Ht), Hs, Hne.
  erewrite catch_bind_err by (apply sync_log_fails; exact Hok). cbn.
  rewrite <- !app_assoc. reflexivity.
Qed.



End ProcFacts.

(** Risk levels: the alert branch ([critical] or [high]) is taken exactly
    when the score is at least 50. *)
Module RiskFacts.
Import QArith.



End RiskFacts.

Module ExtraFacts.

Lemma find_active_user_sound d uid u :
  Auth.find_active_user d uid = Some u ->
  exists ur tr, In ur (Auth.users d) /\ In tr (Auth.tenants d) /\
    Auth.u_id ur = uid /\ Auth.u_status ur = "active" /\
    Auth.u_tenant_id ur = Auth.t_id tr /\ Auth.t_status tr = "active" /\
    u = mkCtxUser (Auth.u_id ur) (Auth.u_email ur) (Auth.t_id tr) (Auth.u_role ur).
Proof.
  unfold Auth.find_active_user.
  destruct (flat_map _ (Auth.users d)) as [|x rest] eqn:E; [discriminate|].
  intros H. injection H as ->.
  assert (Hin : In u (flat_map (fun ur => flat_map (fun tr =>
            if String.eqb (Auth.u_tenant_id ur) (Auth.t_id tr) && String.eqb (Auth.u_id ur) uid
               && String.eqb (Auth.u_status ur) "active" && String.eqb (Auth.t_status tr) "active"
            then [mkCtxUser (Auth.u_id ur) (Auth.u_email ur) (Auth.t_id tr) (Auth.u_role ur)]
            else []) (Auth.tenants d)) (Auth.users d))) by (rewrite E; now left).
  apply in_flat_map in Hin as [ur [Hur Hin]]. apply in_flat_map in Hin as [tr [Htr Hin]].
  destruct (String.eqb (Auth.u_tenant_id ur) (Auth.t_id tr) && String.eqb (Auth.u_id ur) uid
            && String.eqb (Auth.u_status ur) "active" && String.eqb (Auth.t_status tr) "active")
    eqn:Eb; [|destruct Hin].
  destruct Hin as [<-|[]].
  apply andb_prop in Eb as [Eb E4]. apply andb_prop in Eb as [Eb E3].
  apply andb_prop in Eb as [E1 E2]. apply String.eqb_eq in E1, E2, E3, E4.
  exists ur, tr. repeat split; auto.
Qed.

Lemma authenticate_next_sound decode d hdr effs u :
  Auth.authenticate decode d hdr = (effs, Next u) ->
  exists h uid, hdr = Some h /\ String.prefix "Bearer " h = true /\
    Auth.jwt_verify decode (String.substring 7 (String.length h - 7) h) = Auth.JwtOk uid /\
    Auth.find_active_user d uid = Some u.
Proof.
  unfold Auth.authenticate. destruct hdr as [h|]; [|discriminate].
  destruct (String.prefix "Bearer " h) eqn:Hp; [|discriminate]. cbn.
  destruct (Auth.jwt_verify decode _) as [uid|name] eqn:Hv.
  - destruct (Auth.find_active_user d uid) eqn:Hf; intros H; inversion H; subst.
    exists h, uid. auto.
  - destruct (String.eqb name "JsonWebTokenError" || String.eqb name "TokenExpiredError");
      discriminate.
Qed.

Lemma tenant_next_sound e d req u effs tid :
  Tenant.tenantMiddleware e d req (Some u) = (effs, Next (Some tid)) ->
  (tid = cu_tenant_id u \/
   (Tenant.node_env e = "development" /\ cu_tenant_id u = EmptyString /\
    Tenant.default_tenant_id e = Some tid)) /\
  exists t, In t (Auth.tenants d) /\ Auth.t_id t = tid /\ Auth.t_status t = "active".
Proof.
  unfold Tenant.tenantMiddleware.
  destruct (String.prefix "/api/v1/auth" (path req)); [discriminate|].
  destruct (String.eqb (cu_tenant_id u) EmptyString) eqn:Ee.
  - destruct (String.eqb (Tenant.node_env e) "development") eqn:Ed;
      [|discriminate].
    destruct (Tenant.default_tenant_id e) as [dt|] eqn:Edt; [|discriminate].
    cbn. destruct (Tenant.find_tenant d dt) as [t|] eqn:Hf; [|discriminate].
    destruct (negb (String.eqb (Auth.t_status t) "active")) eqn:Ea; [discriminate|].
    intros H. injection H as _ <-.
    unfold Tenant.find_tenant in Hf. apply find_some in Hf as [Hin Hid].
    apply String.eqb_eq in Hid, Ee, Ed. apply negb_false_iff, String.eqb_eq in Ea.
    split; [right; subst; auto|]. exists t. auto.
  - cbn. destruct (Tenant.find_tenant d (cu_tenant_id u)) as [t|] eqn:Hf; [|discriminate].
    destruct (negb (String.eqb (Auth.t_status t) "active")) eqn:Ea; [discriminate|].
    intros H. injection H as _ <-.
    unfold Tenant.find_tenant in Hf. apply find_some in Hf as [Hin Hid].
    apply String.eqb_eq in Hid. apply negb_false_iff, String.eqb_eq in Ea.
    split; [left; auto|]. exists t. auto.
Qed.


Lemma lookup_redact_same k s :
  lookup k (Audit.redact k s) = if truthy (lookup k s) then Some Audit.REDACTED else lookup k s.
Proof.
  unfold Audit.redact. destruct (truthy (lookup k s)); [apply Facts.lookup_set_same|reflexivity].
Qed.

Lemma NoDup_snoc {A} (l : list A) (x : A) : NoDup l -> ~ In x l -> NoDup (l ++ [x]).
Proof.
  induction l as [|y l IH]; intros Hnd Hx; cbn.
  - constructor; [intros []|constructor].
  - inversion Hnd as [|? ? Hy Hl]; subst. constructor.
    + intros Hin. apply in_app_or in Hin as [Hin|[Hin|[]]]; [contradiction|].
      subst. apply Hx. now left.
    + apply IH; [exact Hl|]. intros Hin. apply Hx. now right.
Qed.

End ExtraFacts.

Module PF.
Import Procurement.
#[local] Arguments poNumber : simpl never.




Lemma find_none (tenantId id : string) (l : list po_row) :
  (forall p, In p l -> po_id p = id -> po_tenant_id p <> tenantId) ->
  find (fun p => String.eqb (po_id p) id && String.eqb (po_tenant_id p) tenantId) l = None.
Proof.
  induction l as [|p l IH]; intros H; [reflexivity|]. simpl.
  destruct (String.eqb (po_id p) id) eqn:E1; simpl.
  - apply String.eqb_eq in E1. destruct (String.eqb (po_tenant_id p) tenantId) eqn:E2.
    + apply String.eqb_eq in E2. exfalso. exact (H p (or_introl eq_refl) E1 E2).
    + apply IH. intros q Hq. apply H. now right.
  - apply IH. intros q Hq. apply H. now right.
Qed.




End PF.

Module PenFacts.
Import Penalties.



Lemma approve_fst tenantId userId id tbl :
  fst (approve_penalty tenantId userId id tbl) =
  map (fun q => if approvable tenantId id q then approve_row userId q else q) tbl.
Proof.
  unfold approve_penalty. destruct (filter (approvable tenantId id) tbl) as [|p rest] eqn:E.
  - cbn. induction tbl as [|q tbl IH]; [reflexivity|]. cbn in E |- *.
    destruct (approvable tenantId id q); [discriminate|]. f_equal. now apply IH.
  - reflexivity.
Qed.

End PenFacts.

Module RiskExtra.
Import QArith.


Lemma qle_bool_trans (a b sc : Q) : Qle_bool a b = true -> Qle_bool b sc = true -> Qle_bool a sc = true.
Proof. rewrite !Qle_bool_iff. apply Qle_trans. Qed.

Lemma find_upd_same (v : string) (row : Risk.master_row) (vm : list Risk.master_row) :
  Risk.vm_vendor_id row = v ->
  existsb (fun r => String.eqb (Risk.vm_vendor_id r) v) vm = true ->
  find (fun r => String.eqb (Risk.vm_vendor_id r) v)
    (map (fun r => if String.eqb (Risk.vm_vendor_id r) v then row else r) vm) = Some row.
Proof.
  intros Hr. induction vm as [|x vm IH]; cbn; [discriminate|].
  destruct (String.eqb (Risk.vm_vendor_id x) v) eqn:E; cbn.
  - now rewrite Hr, String.eqb_refl.
  - rewrite E. exact IH.
Qed.

Lemma find_upd_other (v w : string) (row : Risk.master_row) (vm : list Risk.master_row) :
  Risk.vm_vendor_id row = v -> w <> v ->
  find (fun r => String.eqb (Risk.vm_vendor_id r) w)
    (map (fun r => if String.eqb (Risk.vm_vendor_id r) v then row else r) vm) =
  find (fun r => String.eqb (Risk.vm_vendor_id r) w) vm.
Proof.
  intros Hr Hne. induction vm as [|x vm IH]; cbn; [reflexivity|].
  destruct (String.eqb (Risk.vm_vendor_id x) v) eqn:E; cbn.
  - apply String.eqb_eq in E. rewrite Hr, E.
    replace (String.eqb v w) with false by (symmetry; apply String.eqb_neq; congruence).
    exact IH.
  - destruct (String.eqb (Risk.vm_vendor_id x) w); [reflexivity|exact IH].
Qed.

Lemma find_app_none (w : string) (row : Risk.master_row) (vm : list Risk.master_row) :
  existsb (fun r => String.eqb (Risk.vm_vendor_id r) w) vm = false ->
  Risk.vm_vendor_id row = w ->
  find (fun r => String.eqb (Risk.vm_vendor_id r) w) (vm ++ [row]) = Some row.
Proof.
  intros H Hr. induction vm as [|x vm IH]; cbn in *.
  - now rewrite Hr, String.eqb_refl.
  - destruct (String.eqb (Risk.vm_vendor_id x) w); [discriminate|]. now apply IH.
Qed.

Lemma find_app_other (v w : string) (row : Risk.master_row) (vm : list Risk.master_row) :
  Risk.vm_vendor_id row = v -> w <> v ->
  find (fun r => String.eqb (Risk.vm_vendor_id r) w) (vm ++ [row]) =
  find (fun r => String.eqb (Risk.vm_vendor_id r) w) vm.
Proof.
  intros Hr Hne. induction vm as [|x vm IH]; cbn.
  - rewrite Hr. replace (String.eqb v w) with false by (symmetry; apply String.eqb_neq; congruence).
    reflexivity.
  - destruct (String.eqb (Risk.vm_vendor_id x) w); [reflexivity|exact IH].
Qed.

Lemma map_upd_ids (v : string) (row : Risk.master_row) (vm : list Risk.master_row) :
  Risk.vm_vendor_id row = v ->
  map Risk.vm_vendor_id (map (fun r => if String.eqb (Risk.vm_vendor_id r) v then row else r) vm)
  = map Risk.vm_vendor_id vm.
Proof.
  intros Hr. induction vm as [|x vm IH]; cbn; [reflexivity|].
  destruct (String.eqb (Risk.vm_vendor_id x) v) eqn:E; cbn; rewrite IH; [|reflexivity].
  apply String.eqb_eq in E. now rewrite Hr, E.
Qed.

Lemma existsb_false_not_in (v : string) (vm : list Risk.master_row) :
  existsb (fun r => String.eqb (Risk.vm_vendor_id r) v) vm = false ->
  ~ In v (map Risk.vm_vendor_id vm).
Proof.
  intros H Hin. apply in_map_iff in Hin as [x [Hx Hin]].
  assert (existsb (fun r => String.eqb (Risk.vm_vendor_id r) v) vm = true)
    by (apply existsb_exists; exists x; split; [exact Hin | now apply String.eqb_eq]).
  congruence.
Qed.

Lemma existsb_in (v : string) (l : list string) :
  existsb (String.eqb v) l = true <-> In v l.
Proof.
  rewrite existsb_exists. split.
  - intros [x [Hx E]]. apply String.eqb_eq in E. now subst.
  - intros H. exists v. split; [exact H|apply String.eqb_refl].
Qed.


End RiskExtra.

Module ContractFacts.
Import ContractRoutes.



Lemma lock_map_ids tenantId userId id (l : list contract) :
  map ct_id (map (fun q => if lockable tenantId id q then lock_row userId q else q) l) = map ct_id l.
Proof.
  induction l as [|q l IH]; cbn; [reflexivity|]. rewrite IH.
  now destruct (lockable tenantId id q).
Qed.



Lemma filter_nil_map_same tenantId id userId (l : list contract) :
  filter (lockable tenantId id) l = [] ->
  map (fun q => if lockable tenantId id q then lock_row userId q else q) l = l.
Proof.
  induction l as [|q l IH]; cbn; [reflexivity|].
  destruct (lockable tenantId id q); [discriminate|]. intros H. now rewrite IH.
Qed.

Lemma lock_fst tenantId userId id t :
  fst (lock_contract tenantId userId id t) =
  mkTables (map (fun q => if lockable tenantId id q then lock_row userId q else q) (contracts t))
           (contract_clauses t)
           (contract_versions t ++
            map (fun q => mkVersionRow id (max_version id (contract_versions t) + 1)%Z
                            (ct_content q) userId "Contract locked")
                (filter (fun q => String.eqb (ct_id q) id)
                   (map (fun q => if lockable tenantId id q then lock_row userId q else q)
                        (contracts t))))%list
  \/ (filter (lockable tenantId id) (contracts t) = [] /\ fst (lock_contract tenantId userId id t) = t).
Proof.
  unfold lock_contract. destruct (filter (lockable tenantId id) (contracts t)) eqn:E.
  - now right.
  - now left.
Qed.

Lemma fold_max_ge (ns : list Z) (acc x : Z) :
  (In x ns \/ (x <= acc)%Z) -> (x <= fold_left Z.max ns acc)%Z.
Proof.
  revert acc. induction ns as [|n ns IH]; intros acc H; cbn.
  - destruct H as [[]|H]; exact H.
  - apply IH. destruct H as [[<-|H]|H]; [right; lia|now left|right; lia].
Qed.

Lemma max_version_ge id vs x :
  In x (map ver_number (filter (fun v => String.eqb (ver_contract_id v) id) vs)) ->
  (x <= max_version id vs)%Z.
Proof.
  unfold max_version.
  destruct (map ver_number (filter (fun v => String.eqb (ver_contract_id v) id) vs)) as [|n ns].
  - intros [].
  - intros [<-|H]; apply fold_max_ge; [right; lia|now left].
Qed.

Lemma at_most_one_id id (l : list contract) :
  NoDup (map ct_id l) -> List.length (filter (fun q => String.eqb (ct_id q) id) l) <= 1.
Proof.
  induction l as [|q l IH]; intros Hnd; cbn; [lia|].
  inversion Hnd as [|? ? Hq Hl]; subst.
  destruct (String.eqb (ct_id q) id) eqn:E; [|now apply IH].
  apply String.eqb_eq in E. cbn.
  assert (filter (fun q0 => String.eqb (ct_id q0) id) l = []) as ->; [|cbn; lia].
  destruct (filter (fun q0 => String.eqb (ct_id q0) id) l) as [|q' rest] eqn:F; [reflexivity|].
  exfalso. assert (Hin : In q' (filter (fun q0 => String.eqb (ct_id q0) id) l)) by (rewrite F; now left).
  apply filter_In in Hin as [Hin Hid]. apply String.eqb_eq in Hid. apply Hq.
  rewrite E, <- Hid. now apply in_map.
Qed.

End ContractFacts.

Module OnbFacts.
Import Onboarding.



End OnbFacts.


(** C2: on every protected endpoint, a missing credential (no header, or
    one that does not start with [Bearer ]) is answered 401 AUTH_REQUIRED,
    a well-signed but expired token 401 TOKEN_EXPIRED, and a token with a
    bad signature (or one that does not decode) 401 INVALID_TOKEN; in each
    case the trace is empty: no database read, no audit row, no handler.
    Any user lookup or handler run follows a token that [jwt.verify]
    accepted, so signature and expiry are checked before the database. *)
Theorem authenticate_rejections
    (e : Tenant.env) (decode : string -> option Auth.jwt_claims) (d : Auth.db)
    (roles : option (list string)) (h : App.handler) (insert_ok : bool)
    (req : request) :
  ((auth_header req = None \/
    exists hd, auth_header req = Some hd /\ String.prefix "Bearer " hd = false) ->
   App.app e decode d roles h insert_ok req =
     ([], mkResponse 401 (err_body "Authentication required" "AUTH_REQUIRED"))) /\
  (forall tok j, auth_header req = Some ("Bearer " ++ tok) -> decode tok = Some j ->
   Auth.jt_sig_ok j = true -> Auth.jt_expired j = true ->
   App.app e decode d roles h insert_ok req =
     ([], mkResponse 401 (err_body "Invalid or expired token" "TOKEN_EXPIRED"))) /\
  (forall tok, auth_header req = Some ("Bearer " ++ tok) ->
   (decode tok = None \/ exists j, decode tok = Some j /\ Auth.jt_sig_ok j = false) ->
   App.app e decode d roles h insert_ok req =
     ([], mkResponse 401 (err_body "Invalid or expired token" "INVALID_TOKEN"))) /\
  (forall effs r, App.app e decode d roles h insert_ok req = (effs, r) ->
   In (EDbRead "users") effs \/ In EHandler effs ->
   exists hd uid, auth_header req = Some hd /\ String.prefix "Bearer " hd = true /\
     Auth.jwt_verify decode (String.substring 7 (String.length hd - 7) hd) = Auth.JwtOk uid).
Proof.
  split; [|split; [|split]].
  - intros Hm. unfold App.app, Auth.authenticate.
    destruct Hm as [-> | [hd [-> Hp]]]; [reflexivity|]. rewrite Hp. reflexivity.
  - intros tok j Hh Hd Hs Hx. unfold App.app, Auth.authenticate.
    rewrite Hh, Facts.bearer_prefix, Facts.bearer_token. unfold Auth.jwt_verify.
    rewrite Hd, Hs, Hx. reflexivity.
  - intros tok Hh Hd. unfold App.app, Auth.authenticate.
    rewrite Hh, Facts.bearer_prefix, Facts.bearer_token. unfold Auth.jwt_verify.
    destruct Hd as [Hd | [j [Hd Hs]]]; rewrite Hd; [|rewrite Hs]; reflexivity.
  - intros effs r Happ Hin. unfold App.app in Happ.
    destruct (Auth.authenticate decode d (auth_header req)) as [e1 a1] eqn:Ha.
    destruct a1 as [u|r1].
    + eapply Facts.authenticate_lookup_after_verify; [exact Ha | right; eauto].
    + unfold App.finish in Happ. rewrite Facts.on_finish_no_tenant, app_nil_r in Happ.
      inversion Happ; subst. destruct Hin as [Hin|Hin].
      * eapply Facts.authenticate_lookup_after_verify; [exact Ha | left; exact Hin].
      * exfalso. eapply Facts.authenticate_no_handler; eauto.
Qed.

(** C3: the authorization gate is a pure membership test of the resolved
    role in the declared role list: a member proceeds; a non-member gets a
    403 naming the required roles and the current role; an empty role list
    denies every role. *)
Theorem authorize_membership (roles : list string) (cu : ctx_user) :
  (Auth.authorize roles (Some cu) = Next tt <-> In (cu_role cu) roles) /\
  (~ In (cu_role cu) roles ->
   Auth.authorize roles (Some cu) =
     Stop (mkResponse 403
       (JObj [("error", JStr "Insufficient permissions");
              ("code", JStr "PERMISSION_DENIED");
              ("required", JArr (map JStr roles));
              ("current", JStr (cu_role cu))]))) /\
  Auth.authorize [] (Some cu) =
    Stop (mkResponse 403
       (JObj [("error", JStr "Insufficient permissions");
              ("code", JStr "PERMISSION_DENIED");
              ("required", JArr []);
              ("current", JStr (cu_role cu))])).
Proof.
  unfold Auth.authorize. split; [|split].
  - rewrite <- Facts.role_in_spec.
    destruct (Auth.role_in roles (cu_role cu)); simpl; split; congruence.
  - intros Hn. rewrite <- Facts.role_in_spec in Hn.
    destruct (Auth.role_in roles (cu_role cu)); [contradiction Hn; reflexivity | reflexivity].
  - reflexivity.
Qed.

(** C4, as stated (refuted): the claim says every field named [password],
    [password_hash] or [token] in the request body is replaced before
    storage.  Creating an integration whose [configuration] object carries
    a [token] reaches the handler, and the one audit row it produces keeps
    the nested token value, which also appears verbatim in the stored
    [details] text (the top-level [password] is redacted). *)
Lemma audit_nested_token_kept :
  let '(effs, _) :=
    App.app Fixtures.env0 Fixtures.decode0 Fixtures.db0 (Some ["buyer_admin"])
      Fixtures.handler_created true Fixtures.req_integration in
  In EHandler effs /\
  exists row, In (EAuditInsert row) effs /\
    In (JStr "sk-live-123") (fields_named "token" (a_details row)) /\
    includes (Audit.stored_details row) "sk-live-123" = true.
Proof.
  vm_compute. split.
  - do 3 right. now left.
  - eexists. split.
    + do 5 right. now left.
    + split; [left; reflexivity | vm_compute; reflexivity].
Qed.

(** C4, amended: for every request that reaches a handler (outside the
    [/api/v1/auth] prefix), the finish hook makes exactly one audit-insert
    attempt whatever the handler's response; the row's [details.body] is
    [sanitizeBody] of the request body, in which each top-level field
    [password], [password_hash] or [token] that is still truthy holds the
    placeholder [[REDACTED]].  (Handlers themselves do not write audit
    rows.) *)
Theorem audit_one_attempt_top_level_redaction
    (e : Tenant.env) (decode : string -> option Auth.jwt_claims) (d : Auth.db)
    (roles : option (list string)) (h : App.handler) (ok : bool)
    (req : request) (effs : list effect) (r : response) :
  (forall u t rq row, ~ In (EAuditInsert row) (fst (h u t rq))) ->
  String.prefix "/api/v1/auth" (path req) = false ->
  App.app e decode d roles h ok req = (effs, r) ->
  In EHandler effs ->
  Audit.audit_count effs = 1%nat /\
  (forall row, In (EAuditInsert row) effs ->
     get "body" (a_details row) = Some (Audit.sanitizeBody (body req)) /\
     forall k, In k ["password"; "password_hash"; "token"] ->
       truthy (get k (Audit.sanitizeBody (body req))) = true ->
       get k (Audit.sanitizeBody (body req)) = Some Audit.REDACTED).
Proof.
  intros Hh Hp Happ Hin.
  destruct (Facts.app_reaches_handler _ _ _ _ _ _ _ _ _ Hp Happ Hin)
    as [pre [u [t [e4 [-> [Hpre Hh4]]]]]].
  assert (He4 : forall x, In x e4 -> Audit.is_audit x = false).
  { intros [] Hx; try reflexivity. exfalso. apply (Hh u (Some t) req row).
    now rewrite Hh4. }
  assert (Hof : Audit.on_finish req r (Some u) (Some t) ok =
                EAuditInsert (Audit.audit_data req r (Some u) t)
                  :: (if ok then [] else [EConsole "Audit log insertion failed:"])).
  { unfold Audit.on_finish, Audit.shouldAudit. now rewrite !orb_true_r. }
  split.
  - rewrite Facts.audit_count_app.
    change (Audit.audit_count (EHandler :: ?l)) with (Audit.audit_count l).
    rewrite Facts.audit_count_app, Hof.
    rewrite (Facts.audit_count_zero pre Hpre), (Facts.audit_count_zero e4 He4).
    destruct ok; reflexivity.
  - intros row Hrow. split; [|apply Facts.sanitizeBody_top_level].
    apply in_app_or in Hrow as [Hrow|Hrow]; [specialize (Hpre _ Hrow); discriminate|].
    destruct Hrow as [Hrow|Hrow]; [discriminate|].
    apply in_app_or in Hrow as [Hrow|Hrow]; [specialize (He4 _ Hrow); discriminate|].
    rewrite Hof in Hrow. destruct Hrow as [Hrow|Hrow].
    + injection Hrow as <-. reflexivity.
    + destruct ok; simpl in Hrow; intuition discriminate.
Qed.

(** C5: whether the audit insert succeeds or fails, a request produces the
    same response and the same business effects ([pre]); the finish hook
    only runs after that response, and a failed insert adds exactly one
    process-level error line [Audit log insertion failed:] when an insert
    was attempted. *)
Theorem audit_failure_keeps_response
    (e : Tenant.env) (decode : string -> option Auth.jwt_claims) (d : Auth.db)
    (roles : option (list string)) (h : App.handler) (req : request) :
  exists pre r u tid,
    App.app e decode d roles h true req =
      ((pre ++ Audit.on_finish req r u tid true)%list, r) /\
    App.app e decode d roles h false req =
      ((pre ++ Audit.on_finish req r u tid false)%list, r) /\
    Audit.on_finish req r u tid false =
      (Audit.on_finish req r u tid true ++
       if Nat.eqb (Audit.audit_count (Audit.on_finish req r u tid true)) 0 then []
       else [EConsole "Audit log insertion failed:"])%list.
Proof.
  destruct (Facts.app_split e decode d roles h req) as [pre [r [u [tid Hs]]]].
  exists pre, r, u, tid. split; [apply Hs|]. split; [apply Hs|].
  unfold Audit.on_finish. destruct tid; [|reflexivity].
  destruct (Audit.shouldAudit req (status r) u); reflexivity.
Qed.

(** Contract reads are tenant-scoped: a contract id that belongs only to
    other tenants yields the 404 outcome, and a found contract always has
    the caller's tenant id. *)
Lemma get_contract_other_tenant (t : Contracts.tables) (tenantId id : string) :
  (forall c, In c (Contracts.contracts t) -> Contracts.c_id c = id ->
             Contracts.c_tenant_id c <> tenantId) ->
  Contracts.get_contract t tenantId id = Contracts.NotFound.
Proof.
  intros Hc. unfold Contracts.get_contract.
  assert (Hnil : flat_map (fun c => flat_map (fun v =>
            if String.eqb (Contracts.c_vendor_id c) (Contracts.v_id v)
               && String.eqb (Contracts.c_id c) id
               && String.eqb (Contracts.c_tenant_id c) tenantId
            then [(c, Contracts.v_name v)] else []) (Contracts.vendors t))
          (Contracts.contracts t) = []).
  { apply Facts.flat_map_nil. intros c Hin. apply Facts.flat_map_nil. intros v _.
    destruct (String.eqb (Contracts.c_id c) id) eqn:Ei; [|now rewrite andb_false_r].
    apply String.eqb_eq in Ei.
    destruct (String.eqb (Contracts.c_tenant_id c) tenantId) eqn:Et;
      [|now rewrite andb_false_r].
    apply String.eqb_eq in Et. exfalso. exact (Hc c Hin Ei Et). }
  now rewrite Hnil.
Qed.

Lemma get_contract_found_tenant (t : Contracts.tables) (tenantId id : string) c vn cls vs :
  Contracts.get_contract t tenantId id = Contracts.Found c vn cls vs ->
  Contracts.c_tenant_id c = tenantId /\ Contracts.c_id c = id.
Proof.
  unfold Contracts.get_contract.
  destruct (flat_map _ (Contracts.contracts t)) as [|[c' vn'] rest] eqn:E; [discriminate|].
  intros H. inversion H; subst c' vn'.
  assert (Hin : In (c, vn) (flat_map (fun c => flat_map (fun v =>
            if String.eqb (Contracts.c_vendor_id c) (Contracts.v_id v)
               && String.eqb (Contracts.c_id c) id
               && String.eqb (Contracts.c_tenant_id c) tenantId
            then [(c, Contracts.v_name v)] else []) (Contracts.vendors t))
          (Contracts.contracts t))) by (rewrite E; now left).
  apply in_flat_map in Hin as [c0 [_ Hin]]. apply in_flat_map in Hin as [v [_ Hin]].
  destruct (String.eqb (Contracts.c_vendor_id c0) (Contracts.v_id v)
            && String.eqb (Contracts.c_id c0) id
            && String.eqb (Contracts.c_tenant_id c0) tenantId) eqn:Eb; [|destruct Hin].
  destruct Hin as [Hin|[]]. inversion Hin; subst c0.
  apply andb_prop in Eb as [Eb Et]. apply andb_prop in Eb as [_ Ei].
  apply String.eqb_eq in Et, Ei. auto.
Qed.

(** C1 (code_bug): with the caller resolved to tenant A, the survey
    analytics handler reads the responses of tenant B's survey: the survey
    is invisible to tenant A under the check its sibling route performs,
    yet the handler answers 200 with both of tenant B's responses counted,
    every row read belonging to tenant B. *)
Theorem survey_analytics_reads_other_tenant :
  Tenant.tenantMiddleware Fixtures.env0 Fixtures.db0
      (Fixtures.mk_req "GET" "/api/v1/surveys/survey-b/analytics" (Some "Bearer tok-a") (JObj []))
      (Some (mkCtxUser "user-a" "a@tenant-a.example" "tenant-a" "buyer_admin"))
    = ([EDbRead "tenants"], Next (Some "tenant-a")) /\
  Surveys.survey_visible Fixtures.surveys0 "tenant-a" "survey-b" = false /\
  let res := Surveys.survey_analytics Fixtures.surveys0 "tenant-a" "survey-b" in
  Surveys.an_status res = 200%Z /\ Surveys.an_total_responses res = 2%nat /\
  Surveys.an_rows_read res <> [] /\
  Forall (fun r => Surveys.response_tenant Fixtures.surveys0 r = Some "tenant-b")
         (Surveys.an_rows_read res).
Proof.
  vm_compute. repeat split; try discriminate; repeat constructor.
Qed.




(** C9: one provider fetch makes at most 3 attempts; after the n-th failed
    attempt (n = 1, 2) it waits [2^n * 1000] ms before the next, and after
    the third failure it throws [Failed to fetch risk data after 3 attempts:]
    followed by the last error's message; so every fetch ends (with a score
    or that error) after at most 3 requests and 7.5 s of waiting, and the
    assessment route answers 503 with that message, retryable, writing
    nothing. *)
Theorem risk_fetch_bounded_backoff (o : Risk.risk_oracle) :
  Procurement.count_remote (fst (Risk.fetchRiskData o)) <= 3 /\
  (Risk.sleep_total (fst (Risk.fetchRiskData o)) <= 7500)%Z /\
  snd (Risk.fetchRiskData o) <> Risk.FetchUndefined /\
  (forall sc, o 0 = Risk.CallOk sc ->
     Risk.fetchRiskData o = ([ESleep 500; ERemote "risk-provider"], Risk.Fetched sc)) /\
  (forall m0 sc, o 0 = Risk.CallErr m0 -> o 1 = Risk.CallOk sc ->
     Risk.fetchRiskData o =
       ([ESleep 500; ERemote "risk-provider"; ESleep 2000;
         ESleep 500; ERemote "risk-provider"], Risk.Fetched sc)) /\
  (forall m0 m1 sc, o 0 = Risk.CallErr m0 -> o 1 = Risk.CallErr m1 -> o 2 = Risk.CallOk sc ->
     Risk.fetchRiskData o =
       ([ESleep 500; ERemote "risk-provider"; ESleep 2000;
         ESleep 500; ERemote "risk-provider"; ESleep 4000;
         ESleep 500; ERemote "risk-provider"], Risk.Fetched sc)) /\
  (forall m0 m1 m2, o 0 = Risk.CallErr m0 -> o 1 = Risk.CallErr m1 -> o 2 = Risk.CallErr m2 ->
     Risk.fetchRiskData o =
       ([ESleep 500; ERemote "risk-provider"; ESleep 2000;
         ESleep 500; ERemote "risk-provider"; ESleep 4000;
         ESleep 500; ERemote "risk-provider"],
        Risk.FetchThrew ("Failed to fetch risk data after 3 attempts: " ++ m2)) /\
     forall node_env tenantId vendorId provider t,
       Risk.create_assessment node_env o tenantId vendorId provider t =
         (fst (Risk.fetchRiskData o), t,
          mkResponse 503 (JObj [("error", JStr "Risk provider unavailable");
                                ("message", JStr ("Failed to fetch risk data after 3 attempts: " ++ m2));
                                ("retryable", JBool true)]))).
Proof.
  unfold Risk.fetchRiskData. cbn.
  destruct (o 0) as [s0|m0] eqn:E0; [|destruct (o 1) as [s1|m1] eqn:E1;
    [|destruct (o 2) as [s2|m2] eqn:E2]];
  cbn; (split; [lia|]); (split; [lia|]); (split; [discriminate|]);
  repeat split; intros; try congruence;
  unfold Risk.create_assessment, Risk.fetchRiskData; cbn; rewrite ?E0, ?E1, ?E2; cbn;
  congruence.
Qed.




(** X1: whenever the credential verifier passes a request on, it has read
    only the [users] table, the header was [Bearer <token>], the token
    verified to a user id, and the user placed on the request is built
    from an active user row with that id joined to an active tenant row:
    id, email and role from the user, tenant id from the tenant. *)
Theorem authenticate_admits_active_users_only decode d hdr effs u :
  Auth.authenticate decode d hdr = (effs, Next u) ->
  effs = [EDbRead "users"] /\
  exists h uid ur tr, hdr = Some h /\ String.prefix "Bearer " h = true /\
    Auth.jwt_verify decode (String.substring 7 (String.length h - 7) h) = Auth.JwtOk uid /\
    In ur (Auth.users d) /\ In tr (Auth.tenants d) /\
    Auth.u_id ur = uid /\ Auth.u_status ur = "active" /\
    Auth.u_tenant_id ur = Auth.t_id tr /\ Auth.t_status tr = "active" /\
    u = mkCtxUser (Auth.u_id ur) (Auth.u_email ur) (Auth.t_id tr) (Auth.u_role ur).
Proof.
  intros H. pose proof (ExtraFacts.authenticate_next_sound _ _ _ _ _ H) as (h & uid & -> & Hp & Hv & Hf).
  split.
  - unfold Auth.authenticate in H. rewrite Hp, Hv, Hf in H. cbn in H. now inversion H.
  - destruct (ExtraFacts.find_active_user_sound _ _ _ Hf) as (ur & tr & Hur & Htr & Hid & Hs & Ht & Hts & ->).
    exists h, uid, ur, tr. repeat split; auto.
Qed.

(** X2: whenever the tenant resolver lets an authenticated request through
    with a tenant id, it has read only the [tenants] table; the id is the
    user's own tenant (or, in development only, the configured default
    for a user with an empty tenant id), and it names an active tenant. *)
Theorem tenant_resolves_to_user_tenant e d req u effs tid :
  Tenant.tenantMiddleware e d req (Some u) = (effs, Next (Some tid)) ->
  effs = [EDbRead "tenants"] /\
  (tid = cu_tenant_id u \/
   (Tenant.node_env e = "development" /\ cu_tenant_id u = EmptyString /\
    Tenant.default_tenant_id e = Some tid)) /\
  exists t, In t (Auth.tenants d) /\ Auth.t_id t = tid /\ Auth.t_status t = "active".
Proof.
  intros H. split; [|exact (ExtraFacts.tenant_next_sound _ _ _ _ _ _ H)].
  destruct effs as [|x [|y rest]].
  - unfold Tenant.tenantMiddleware in H.
    destruct (String.prefix "/api/v1/auth" (path req)); [discriminate|].
    match type of H with (match ?t with _ => _ end) = _ => destruct t end; discriminate.
  - now rewrite (Facts.tenant_effects _ _ _ _ _ _ H x (or_introl eq_refl)).
  - exfalso. unfold Tenant.tenantMiddleware in H.
    destruct (String.prefix "/api/v1/auth" (path req)); [discriminate|].
    match type of H with (match ?t with _ => _ end) = _ => destruct t end; discriminate.
Qed.

(** X4: the audit row never stores the response body: its [response]
    detail is [null] for every request and response. *)
Theorem audit_response_summary_null req r u tid :
  get "response" (a_details (Audit.audit_data req r u tid)) = Some JNull.
Proof.
  cbn. unfold Audit.sanitizeResponse, Audit.recorded_body.
  destruct (negb (truthy (Some (JStr (stringify (rbody r)))))); reflexivity.
Qed.

(** X3: on a path outside [/api/v1/auth], the route handler runs only for
    an active user of the database whose role is among the route's
    allowed roles, with a tenant the resolver admitted (the user's own,
    or the development default) that is active; the response is then the
    handler's. *)
Theorem handler_runs_only_for_active_member e decode d roles h ok req effs r :
  String.prefix "/api/v1/auth" (path req) = false ->
  App.app e decode d roles h ok req = (effs, r) -> In EHandler effs ->
  exists u tid e4 ur,
    h u (Some tid) req = (e4, r) /\
    In ur (Auth.users d) /\ Auth.u_status ur = "active" /\
    Auth.u_id ur = cu_id u /\ Auth.u_role ur = cu_role u /\
    (forall rs, roles = Some rs -> In (cu_role u) rs) /\
    (tid = cu_tenant_id u \/
     (Tenant.node_env e = "development" /\ cu_tenant_id u = EmptyString /\
      Tenant.default_tenant_id e = Some tid)) /\
    exists t, In t (Auth.tenants d) /\ Auth.t_id t = tid /\ Auth.t_status t = "active".
Proof.
  unfold App.app, App.finish. intros Hp Happ Hin.
  destruct (Auth.authenticate decode d (auth_header req)) as [e1 [u|r1]] eqn:Ha.
  2:{ inversion Happ; subst. exfalso. apply in_app_or in Hin as [Hin|Hin];
      [exact (Facts.authenticate_no_handler _ _ _ _ _ Ha Hin)
      | first [exact (Facts.on_finish_no_handler _ _ _ _ _ Hin) | destruct Hin
               | destruct (Audit.shouldAudit _ _ _); destruct ok; simpl in Hin;
                 intuition discriminate]]. }
  destruct (Tenant.tenantMiddleware e d req (Some u)) as [e2 [tid|r2]] eqn:Ht.
  2:{ inversion Happ; subst. exfalso. apply in_app_or in Hin as [Hin|Hin];
      [exact (proj2 (Facts.middleware_effects_no_handler _ _ _ _ _ _ _ _ _ _ _ Ha Ht Hin) eq_refl)
      | first [exact (Facts.on_finish_no_handler _ _ _ _ _ Hin) | destruct Hin
               | destruct (Audit.shouldAudit _ _ _); destruct ok; simpl in Hin;
                 intuition discriminate]]. }
  destruct (Facts.tenant_next_some _ _ _ _ _ _ Hp Ht) as [t ->].
  destruct (match roles with Some rs => Auth.authorize rs (Some u) | None => Next tt end)
    as [[]|r3] eqn:Hg.
  2:{ inversion Happ; subst. exfalso. apply in_app_or in Hin as [Hin|Hin];
      [exact (proj2 (Facts.middleware3_effects _ _ _ _ _ _ _ _ _ _ _ Ha Ht Hin) eq_refl)
      | first [exact (Facts.on_finish_no_handler _ _ _ _ _ Hin) | destruct Hin
               | destruct (Audit.shouldAudit _ _ _); destruct ok; simpl in Hin;
                 intuition discriminate]]. }
  destruct (h u (Some t) req) as [e4 r4] eqn:Hh. inversion Happ; subst.
  destruct (ExtraFacts.authenticate_next_sound _ _ _ _ _ Ha) as (hd & uid & _ & _ & _ & Hf).
  destruct (ExtraFacts.find_active_user_sound _ _ _ Hf)
    as (ur & tr & Hur & Htr & Hid & Hs & Htt & Hts & Hu).
  destruct (ExtraFacts.tenant_next_sound _ _ _ _ _ _ Ht) as [Htid Hten].
  exists u, t, e4, ur. split; [exact Hh|]. split; [exact Hur|]. split; [exact Hs|].
  split; [now rewrite Hu|]. split; [now rewrite Hu|]. split; [|split; [exact Htid|exact Hten]].
  intros rs ->. unfold Auth.authorize in Hg.
  destruct (negb (Auth.role_in rs (cu_role u))) eqn:Er; [discriminate|].
  apply Facts.role_in_spec. now apply negb_false_iff.
Qed.

(** X5: on an object body, the audit sanitizer replaces a truthy
    [password], [password_hash] or [token] field by [[REDACTED]], and
    leaves every other field, and a falsy sensitive field, as it was. *)
Theorem sanitizeBody_object_fields (kvs : list (string * json)) (k : string) :
  get k (Audit.sanitizeBody (JObj kvs)) =
  if existsb (String.eqb k) ["password"; "password_hash"; "token"] && truthy (lookup k kvs)
  then Some Audit.REDACTED else lookup k kvs.
Proof.
  cbn [Audit.sanitizeBody truthy negb spread get].
  destruct (String.eqb k "password") eqn:E1; [apply String.eqb_eq in E1; subst k|].
  { rewrite !Facts.lookup_redact_other by discriminate. apply ExtraFacts.lookup_redact_same. }
  destruct (String.eqb k "password_hash") eqn:E2; [apply String.eqb_eq in E2; subst k|].
  { rewrite Facts.lookup_redact_other by discriminate. rewrite ExtraFacts.lookup_redact_same.
    now rewrite Facts.lookup_redact_other by discriminate. }
  destruct (String.eqb k "token") eqn:E3; [apply String.eqb_eq in E3; subst k|].
  { rewrite ExtraFacts.lookup_redact_same.
    now rewrite !Facts.lookup_redact_other by discriminate. }
  apply String.eqb_neq in E1, E2, E3. cbn.
  rewrite !Facts.lookup_redact_other by assumption.
  replace (String.eqb k "password") with false by (symmetry; now apply String.eqb_neq).
  replace (String.eqb k "password_hash") with false by (symmetry; now apply String.eqb_neq).
  replace (String.eqb k "token") with false by (symmetry; now apply String.eqb_neq).
  reflexivity.
Qed.

(** X6: outside the development environment, the error handler's
    response body never has a [stack] field. *)
Theorem errorHandler_no_stack_outside_development node_env err :
  node_env <> "development" ->
  get "stack" (rbody (snd (ErrorHandler.errorHandler node_env err))) = None.
Proof.
  intros Hne. apply String.eqb_neq in Hne. unfold ErrorHandler.errorHandler, ErrorHandler.with_detail.
  cbn [snd]. rewrite Hne.
  repeat match goal with
  | |- context [if ?c then _ else _] => destruct c
  | |- context [match ErrorHandler.err_detail err with _ => _ end] =>
      destruct (ErrorHandler.err_detail err)
  end; reflexivity.
Qed.




(** X9: a manual sync of an existing PO of the tenant with an ERP system
    always answers 503 with [retryable: true], makes one ERP call and
    writes no sync log. When the ERP call fails, the message is the ERP
    error's and the purchase orders are unchanged; when it succeeds, the
    PO is marked [synced] with [erp_po_id] set to [ERP-] and the first 8
    characters of its id, and the message is that of the [NOT NULL]
    violation the sync log insert then raises. *)
Theorem manual_sync_answers_503 (erp : Procurement.erp_oracle) (s : Procurement.state)
    (tenantId id sys : string) (p : Procurement.po_row)
    (r : Procurement.result response) (s' : Procurement.state) :
  Procurement.find_by_id id (Procurement.purchase_orders s) = Some p ->
  Procurement.po_tenant_id p = tenantId ->
  Procurement.erp_system p = Some sys -> String.eqb sys EmptyString = false ->
  Procurement.manual_sync erp tenantId id s = (r, s') ->
  Procurement.sync_logs s' = Procurement.sync_logs s /\
  Procurement.remote_calls s' = S (Procurement.remote_calls s) /\
  (forall msg, erp (Procurement.remote_calls s) = Some msg ->
     r = Procurement.Ok (mkResponse 503 (JObj [("error", JStr "ERP sync failed");
                                               ("message", JStr msg); ("retryable", JBool true)])) /\
     Procurement.purchase_orders s' = Procurement.purchase_orders s) /\
  (erp (Procurement.remote_calls s) = None ->
     r = Procurement.Ok (mkResponse 503 (JObj [("error", JStr "ERP sync failed");
           ("message", JStr (ErrorHandler.err_message
                              (ErrorHandler.pg_not_null "integration_id" "integration_sync_logs")));
           ("retryable", JBool true)])) /\
     Procurement.find_by_id id (Procurement.purchase_orders s') =
       Some (Procurement.set_synced ("ERP-" ++ String.substring 0 8 id) p)).
Proof.
  intros Hp Ht Hs Hne Hm.
  destruct (erp (Procurement.remote_calls s)) as [msg|] eqn:Hf.
  - rewrite (ProcFacts.manual_sync_erp_fail erp s tenantId id sys p msg Hp Ht Hs Hne Hf) in Hm.
    injection Hm as <- <-. cbn [Procurement.sync_logs Procurement.remote_calls Procurement.purchase_orders].
    split; [reflexivity|]. split; [reflexivity|].
    split; [intros m Hm; injection Hm as <-; split; reflexivity|discriminate].
  - rewrite (ProcFacts.manual_sync_erp_ok erp s tenantId id sys p Hp Ht Hs Hne Hf) in Hm.
    injection Hm as <- <-. cbn [Procurement.sync_logs Procurement.remote_calls Procurement.purchase_orders].
    split; [reflexivity|]. split; [reflexivity|].
    split; [intros m Hm; discriminate|]. intros _. split; [reflexivity|].
    rewrite ProcFacts.find_map_upd, Hp by reflexivity. reflexivity.
Qed.






(** X12: approving a penalty keeps the number of rows, and changes only
    rows that have the given id, belong to the tenant and are pending,
    each of which becomes the row approved by the user. *)
Theorem approve_penalty_touches_only_target (tenantId userId id : string)
    (tbl : list Penalties.penalty_row) :
  let tbl1 := fst (Penalties.approve_penalty tenantId userId id tbl) in
  List.length tbl1 = List.length tbl /\
  forall n q, nth_error tbl n = Some q ->
    nth_error tbl1 n = Some q \/
    (Penalties.pe_id q = id /\ Penalties.pe_tenant_id q = tenantId /\
     Penalties.pe_status q = "pending" /\
     nth_error tbl1 n = Some (Penalties.approve_row userId q)).
Proof.
  intros tbl1. subst tbl1. rewrite PenFacts.approve_fst. split; [apply length_map|].
  intros n q Hn. rewrite nth_error_map, Hn. cbn.
  destruct (Penalties.approvable tenantId id q) eqn:E; [right|now left].
  unfold Penalties.approvable in E. apply andb_prop in E as [E E3]. apply andb_prop in E as [E1 E2].
  apply String.eqb_eq in E1, E2, E3. auto.
Qed.


Section RiskLevels.
Import QArith.

(** X13: [calculateRiskLevel] is [critical] exactly for scores of at least
    75, [high] for scores in [50, 75), [medium] for [25, 50) and [low]
    below 25. *)
Theorem calculateRiskLevel_bands (sc : Q) :
  (Risk.calculateRiskLevel sc = "critical" <-> 75 <= sc) /\
  (Risk.calculateRiskLevel sc = "high" <-> 50 <= sc /\ sc < 75) /\
  (Risk.calculateRiskLevel sc = "medium" <-> 25 <= sc /\ sc < 50) /\
  (Risk.calculateRiskLevel sc = "low" <-> sc < 25).
Proof.
  unfold Risk.calculateRiskLevel.
  destruct (Qle_bool 75 sc) eqn:E75; [|destruct (Qle_bool 50 sc) eqn:E50;
    [|destruct (Qle_bool 25 sc) eqn:E25]].
  all: repeat match goal with
       | H : Qle_bool _ _ = true |- _ => apply Qle_bool_iff in H
       | H : Qle_bool ?a ?b = false |- _ =>
           let H' := fresh in assert (H' : ~ (Qle_bool a b = true)) by congruence;
           rewrite Qle_bool_iff in H'; apply Qnot_le_lt in H'; clear H
       end.
  all: repeat split; intros; try discriminate; try reflexivity;
       repeat match goal with H : _ /\ _ |- _ => destruct H end;
       unfold Qle, Qlt in *; cbn [Qnum Qden] in *; lia.
Qed.

End RiskLevels.

(** X14: [updateVendorMaster] acts only on a vendor id present in the
    [vendors] table, of any tenant (its [SELECT] has no tenant filter): it
    then updates the vendor's consolidated row or appends one, so the
    vendor is found with the new score and level, other vendors' rows are
    found as before and vendor ids stay distinct; for an id absent from
    [vendors] it changes nothing.  Other tables are never touched. *)
Theorem updateVendorMaster_upsert (v : string) (sc : QArith_base.Q) (lvl : string) (t : Risk.tables) :
  NoDup (map Risk.vm_vendor_id (Risk.vendor_master_consolidated t)) ->
  let t' := Risk.updateVendorMaster v sc lvl t in
  NoDup (map Risk.vm_vendor_id (Risk.vendor_master_consolidated t')) /\
  (In v (Risk.vendor_ids t) ->
     find (fun r => String.eqb (Risk.vm_vendor_id r) v) (Risk.vendor_master_consolidated t')
     = Some (Risk.mkMaster v sc lvl)) /\
  (~ In v (Risk.vendor_ids t) -> t' = t) /\
  (forall w, w <> v ->
     find (fun r => String.eqb (Risk.vm_vendor_id r) w) (Risk.vendor_master_consolidated t') =
     find (fun r => String.eqb (Risk.vm_vendor_id r) w) (Risk.vendor_master_consolidated t)) /\
  Risk.vendor_ids t' = Risk.vendor_ids t /\
  Risk.vendor_risk_assessments t' = Risk.vendor_risk_assessments t /\
  Risk.risk_alerts t' = Risk.risk_alerts t.
Proof.
  intros Hnd t'. subst t'. destruct t as [ids ras vm al]. unfold Risk.updateVendorMaster. cbn.
  destruct (existsb (String.eqb v) ids) eqn:Ev.
  - apply RiskExtra.existsb_in in Ev.
    destruct (existsb (fun r => String.eqb (Risk.vm_vendor_id r) v) vm) eqn:Ex.
    + split; [now rewrite RiskExtra.map_upd_ids|].
      split; [intros _; now apply RiskExtra.find_upd_same|].
      split; [intros H; contradiction|].
      split; [intros w Hw; now apply RiskExtra.find_upd_other|]. auto.
    + split.
      { rewrite map_app. cbn. apply ExtraFacts.NoDup_snoc; [exact Hnd|].
        now apply RiskExtra.existsb_false_not_in. }
      split; [intros _; now apply RiskExtra.find_app_none|].
      split; [intros H; contradiction|].
      split; [intros w Hw; now apply (RiskExtra.find_app_other v w)|]. auto.
  - assert (Hn : ~ In v ids) by (rewrite <- RiskExtra.existsb_in; congruence).
    split; [exact Hnd|]. split; [intros H; contradiction|]. auto.
Qed.

(** X15: creating a risk assessment never writes a risk alert nor changes
    the vendors, and when the risk data could not be fetched it changes
    no table at all. *)
Theorem create_assessment_never_writes_alerts (node_env : string) (o : Risk.risk_oracle)
    (tenantId vendorId provider : string) (t : Risk.tables) :
  let t' := snd (fst (Risk.create_assessment node_env o tenantId vendorId provider t)) in
  Risk.risk_alerts t' = Risk.risk_alerts t /\
  Risk.vendor_ids t' = Risk.vendor_ids t /\
  ((forall sc, snd (Risk.fetchRiskData o) <> Risk.Fetched sc) -> t' = t).
Proof.
  intros t'. subst t'. unfold Risk.create_assessment.
  destruct (Risk.fetchRiskData o) as [e1 fr]. cbn [snd].
  destruct fr as [sc|msg|].
  - destruct (negb (existsb (String.eqb vendorId) (Risk.vendor_ids t))).
    + destruct (ErrorHandler.errorHandler node_env (Risk.vendor_fk_error vendorId)). cbn.
      split; [reflexivity|]. split; [reflexivity|]. intros H. exfalso. exact (H sc eq_refl).
    + destruct (Risk.checkRiskThresholds vendorId sc (Risk.calculateRiskLevel sc)) as [err|].
      * destruct (ErrorHandler.errorHandler node_env err). cbn. split; [reflexivity|].
        split; [reflexivity|]. intros H. exfalso. exact (H sc eq_refl).
      * cbn. split; [reflexivity|]. split; [reflexivity|]. intros H. exfalso. exact (H sc eq_refl).
  - cbn. auto.
  - destruct (ErrorHandler.errorHandler node_env Risk.undefined_read). cbn. auto.
Qed.




(** X18: locking a contract keeps contract ids distinct and, if version
    numbers are distinct within each contract before, they are after:
    the snapshot gets the contract's previous maximum plus one. *)
Theorem lock_contract_versions_distinct (tenantId userId id : string) (t : ContractRoutes.tables) :
  NoDup (map ContractRoutes.ct_id (ContractRoutes.contracts t)) ->
  (forall cid, NoDup (map ContractRoutes.ver_number
     (filter (fun v => String.eqb (ContractRoutes.ver_contract_id v) cid)
        (ContractRoutes.contract_versions t)))) ->
  let t1 := fst (ContractRoutes.lock_contract tenantId userId id t) in
  NoDup (map ContractRoutes.ct_id (ContractRoutes.contracts t1)) /\
  forall cid, NoDup (map ContractRoutes.ver_number
     (filter (fun v => String.eqb (ContractRoutes.ver_contract_id v) cid)
        (ContractRoutes.contract_versions t1))).
Proof.
  intros Hids Hvs t1. subst t1.
  destruct (ContractFacts.lock_fst tenantId userId id t) as [E|[_ E]]; rewrite E; [|auto].
  cbn [ContractRoutes.contracts ContractRoutes.contract_versions].
  rewrite ContractFacts.lock_map_ids. split; [exact Hids|]. intros cid.
  set (cs := map _ (ContractRoutes.contracts t)).
  assert (Hle : List.length (filter (fun q => String.eqb (ContractRoutes.ct_id q) id) cs) <= 1).
  { apply ContractFacts.at_most_one_id. subst cs. now rewrite ContractFacts.lock_map_ids. }
  rewrite filter_app, map_app.
  destruct (filter (fun q => String.eqb (ContractRoutes.ct_id q) id) cs) as [|q [|q' rest]];
    cbn [map filter ContractRoutes.ver_contract_id ContractRoutes.ver_number];
    [rewrite app_nil_r; apply Hvs| |cbn in Hle; lia].
  destruct (String.eqb id cid) eqn:Ec; cbn; [|rewrite app_nil_r; apply Hvs].
  apply String.eqb_eq in Ec. subst cid.
  apply ExtraFacts.NoDup_snoc; [apply Hvs|].
  intros Hin. apply ContractFacts.max_version_ge in Hin. lia.
Qed.








Lemma authenticate_rejections_witness :
  App.app Fixtures.env0 Fixtures.decode0 Fixtures.db0 (Some ["buyer_admin"])
    Fixtures.handler_created true
    (Fixtures.mk_req "POST" "/api/v1/integrations" None (JObj []))
  = ([], mkResponse 401 (err_body "Authentication required" "AUTH_REQUIRED")) /\
  App.app Fixtures.env0 Fixtures.decode0 Fixtures.db0 (Some ["buyer_admin"])
    Fixtures.handler_created true
    (Fixtures.mk_req "POST" "/api/v1/integrations" (Some "Bearer tok-expired") (JObj []))
  = ([], mkResponse 401 (err_body "Invalid or expired token" "TOKEN_EXPIRED")) /\
  App.app Fixtures.env0 Fixtures.decode0 Fixtures.db0 (Some ["buyer_admin"])
    Fixtures.handler_created true
    (Fixtures.mk_req "POST" "/api/v1/integrations" (Some "Bearer tok-forged") (JObj []))
  = ([], mkResponse 401 (err_body "Invalid or expired token" "INVALID_TOKEN")).
Proof.
  split; [|split].
  - apply (proj1 (authenticate_rejections Fixtures.env0 Fixtures.decode0 Fixtures.db0
      (Some ["buyer_admin"]) Fixtures.handler_created true
      (Fixtures.mk_req "POST" "/api/v1/integrations" None (JObj [])))).
    left. reflexivity.
  - apply (proj1 (proj2 (authenticate_rejections Fixtures.env0 Fixtures.decode0 Fixtures.db0
      (Some ["buyer_admin"]) Fixtures.handler_created true
      (Fixtures.mk_req "POST" "/api/v1/integrations" (Some "Bearer tok-expired") (JObj []))))
      "tok-expired" (Auth.mkJwt "user-a" true true)); reflexivity.
  - apply (proj1 (proj2 (proj2 (authenticate_rejections Fixtures.env0 Fixtures.decode0
      Fixtures.db0 (Some ["buyer_admin"]) Fixtures.handler_created true
      (Fixtures.mk_req "POST" "/api/v1/integrations" (Some "Bearer tok-forged") (JObj [])))))
      "tok-forged"); [reflexivity|].
    right. exists (Auth.mkJwt "user-a" false false). split; reflexivity.
Defined.

Lemma authorize_membership_witness :
  Auth.authorize ["buyer_admin"] (Some (mkCtxUser "user-v" "v@x.example" "tenant-a" "vendor_user")) =
    Stop (mkResponse 403
       (JObj [("error", JStr "Insufficient permissions");
              ("code", JStr "PERMISSION_DENIED");
              ("required", JArr [JStr "buyer_admin"]);
              ("current", JStr "vendor_user")])).
Proof.
  apply (proj1 (proj2 (authorize_membership ["buyer_admin"]
    (mkCtxUser "user-v" "v@x.example" "tenant-a" "vendor_user")))).
  simpl. intros [H|[]]. discriminate.
Defined.

Lemma audit_one_attempt_witness :
  Audit.audit_count
    (fst (App.app Fixtures.env0 Fixtures.decode0 Fixtures.db0 (Some ["buyer_admin"])
            Fixtures.handler_created false Fixtures.req_integration)) = 1%nat.
Proof.
  refine (proj1 (audit_one_attempt_top_level_redaction Fixtures.env0 Fixtures.decode0
    Fixtures.db0 (Some ["buyer_admin"]) Fixtures.handler_created false
    Fixtures.req_integration _ _ _ _ _ _)).
  - intros u t rq row. simpl. intuition discriminate.
  - reflexivity.
  - apply surjective_pairing.
  - vm_compute. do 3 right. now left.
Defined.




Lemma risk_fetch_bounded_backoff_witness :
  Risk.fetchRiskData Fixtures.risk_down =
    ([ESleep 500; ERemote "risk-provider"; ESleep 2000;
      ESleep 500; ERemote "risk-provider"; ESleep 4000;
      ESleep 500; ERemote "risk-provider"],
     Risk.FetchThrew "Failed to fetch risk data after 3 attempts: ETIMEDOUT").
Proof.
  exact (proj1 (proj2 (proj2 (proj2 (proj2 (proj2 (proj2
    (risk_fetch_bounded_backoff Fixtures.risk_down)))))) "ETIMEDOUT" "ETIMEDOUT" "ETIMEDOUT"
    eq_refl eq_refl eq_refl)).
Defined.


Lemma authenticate_admits_active_users_only_witness :
  exists ur, In ur (Auth.users Fixtures.db0) /\ Auth.u_id ur = "user-a" /\
    Auth.u_status ur = "active".
Proof.
  destruct (authenticate_admits_active_users_only Fixtures.decode0 Fixtures.db0
    (Some "Bearer tok-a") [EDbRead "users"]
    (mkCtxUser "user-a" "a@tenant-a.example" "tenant-a" "buyer_admin") eq_refl)
    as [_ (h & uid & ur & tr & Hh & _ & Hv & Hur & _ & Hid & Hs & _)].
  injection Hh as <-. vm_compute in Hv. injection Hv as <-.
  exists ur. auto.
Defined.

Lemma tenant_resolves_to_user_tenant_witness :
  exists t, In t (Auth.tenants Fixtures.db0) /\ Auth.t_id t = "tenant-a" /\
    Auth.t_status t = "active".
Proof.
  exact (proj2 (proj2 (tenant_resolves_to_user_tenant Fixtures.env0 Fixtures.db0
    Fixtures.req_integration (mkCtxUser "user-a" "a@tenant-a.example" "tenant-a" "buyer_admin")
    [EDbRead "tenants"] "tenant-a" eq_refl))).
Defined.

Lemma handler_runs_only_for_active_member_witness :
  exists ur, In ur (Auth.users Fixtures.db0) /\ Auth.u_status ur = "active".
Proof.
  assert (Hin : In EHandler (fst (App.app Fixtures.env0 Fixtures.decode0 Fixtures.db0
    (Some ["buyer_admin"]) Fixtures.handler_created true Fixtures.req_integration)))
    by (vm_compute; repeat (first [now left | right])).
  destruct (handler_runs_only_for_active_member Fixtures.env0 Fixtures.decode0 Fixtures.db0
    (Some ["buyer_admin"]) Fixtures.handler_created true Fixtures.req_integration _ _
    eq_refl (surjective_pairing _) Hin)
    as (u & tid & e4 & ur & _ & Hur & Hs & _).
  exists ur. auto.
Defined.

Lemma errorHandler_no_stack_outside_development_witness :
  get "stack" (rbody (snd (ErrorHandler.errorHandler "production" Risk.undefined_read))) = None.
Proof.
  apply errorHandler_no_stack_outside_development. discriminate.
Defined.



Lemma manual_sync_answers_503_witness :
  Procurement.sync_logs (snd (Procurement.manual_sync Fixtures.erp_down "tenant-a"
     "0f1e2d3c-aaaa" Fixtures.po_created_state)) =
  Procurement.sync_logs Fixtures.po_created_state.
Proof.
  refine (proj1 (manual_sync_answers_503 Fixtures.erp_down Fixtures.po_created_state
    "tenant-a" "0f1e2d3c-aaaa" "SAP"
    (Procurement.mkPO "0f1e2d3c-aaaa" "tenant-a" "PO-2026-00001" "vendor-1" 1200 "USD"
       (JArr [JStr "item"]) (Some "SAP") "user-a" "draft" (Some "failed") (Some (ErrorHandler.err_message (ErrorHandler.pg_not_null "integration_id" "integration_sync_logs")))
       (Some "ERP-0f1e2d3c"))
    _ _ _ _ _ _ (surjective_pairing _))); vm_compute; reflexivity.
Defined.


Lemma updateVendorMaster_upsert_witness :
  find (fun r => String.eqb (Risk.vm_vendor_id r) "vendor-1")
    (Risk.vendor_master_consolidated (Risk.updateVendorMaster "vendor-1"
       (QArith_base.Qmake 82 1) "critical" Fixtures.risk_tables0)) =
  Some (Risk.mkMaster "vendor-1" (QArith_base.Qmake 82 1) "critical").
Proof.
  refine (proj1 (proj2 (updateVendorMaster_upsert "vendor-1" (QArith_base.Qmake 82 1) "critical"
    Fixtures.risk_tables0 _)) _).
  - vm_compute. constructor.
  - vm_compute. now left.
Defined.

Lemma lock_contract_versions_distinct_witness :
  NoDup (map ContractRoutes.ver_number
    (filter (fun v => String.eqb (ContractRoutes.ver_contract_id v) "ct-1")
      (ContractRoutes.contract_versions
         (fst (ContractRoutes.lock_contract "tenant-a" "user-a" "ct-1" Fixtures.contracts0))))).
Proof.
  refine (proj2 (lock_contract_versions_distinct "tenant-a" "user-a" "ct-1"
    Fixtures.contracts0 _ _) "ct-1").
  - vm_compute. constructor; [intros []|constructor].
  - intros cid. unfold Fixtures.contracts0.
    cbn [ContractRoutes.contract_versions filter ContractRoutes.ver_contract_id].
    destruct (String.eqb "ct-1" cid); cbn; [constructor; [intros []|constructor]|constructor].
Defined.



